(** * crossenv: the cross-compiling virtual environment builder

    A shallow embedding of [crossenv/__init__.py] (class [CrossEnvBuilder]
    and [parse_env_vars]) together with the properties of its environment
    assembly logic.

    Layout of the development:
    - [PyStr]: the Python [str] methods and [os.path] functions the
      program calls, on strings of code points below 256;
    - exceptions, the file system and the effect monad;
    - the embedded program, in source order;
    - the theorems. *)

From Stdlib Require Import ZArith Ascii String List Lia Bool.
From stdpp Require Import base option list gmap sets strings sorting.

Local Open Scope string_scope.

(** ** Python strings *)

Module PyStr.

(** [s.split(sep, 1)] for a one-character separator: the text before and
    after the first occurrence of [sep], or [None] when [sep] does not
    occur (Python then returns the one-element list [[s]]). *)
Fixpoint cut (sep : ascii) (s : string) : option (string * string) :=
  match s with
  | EmptyString => None
  | String c s' =>
      if Ascii.eqb c sep then Some (EmptyString, s')
      else match cut sep s' with
           | Some (a, b) => Some (String c a, b)
           | None => None
           end
  end.

(** [s.split(sep, 1)] as the list Python returns. *)
Definition split1 (sep : ascii) (s : string) : list string :=
  match cut sep s with
  | Some (a, b) => [a; b]
  | None => [s]
  end.

(** [s.split(sep)]: every occurrence splits; the result is never empty. *)
Fixpoint split (sep : ascii) (s : string) : list string :=
  match s with
  | EmptyString => [EmptyString]
  | String c s' =>
      if Ascii.eqb c sep then EmptyString :: split sep s'
      else match split sep s' with
           | part :: parts => String c part :: parts
           | [] => [String c EmptyString]
           end
  end.

(** [s.partition(sep)]. *)
Definition partition (sep : ascii) (s : string) : string * string * string :=
  match cut sep s with
  | Some (a, b) => (a, String sep EmptyString, b)
  | None => (s, EmptyString, EmptyString)
  end.

(** The text before and after the last occurrence of [sep]. *)
Fixpoint rcut (sep : ascii) (s : string) : option (string * string) :=
  match s with
  | EmptyString => None
  | String c s' =>
      match rcut sep s' with
      | Some (a, b) => Some (String c a, b)
      | None => if Ascii.eqb c sep then Some (EmptyString, s') else None
      end
  end.

(** [str.isspace] on one code point below 256. *)
Definition isspace (c : ascii) : bool :=
  let n := nat_of_ascii c in
  (((9 <=? n) && (n <=? 13)) || ((28 <=? n) && (n <=? 32))
   || (n =? 133) || (n =? 160))%nat.

Fixpoint lstrip (s : string) : string :=
  match s with
  | EmptyString => EmptyString
  | String c s' => if isspace c then lstrip s' else s
  end.

Fixpoint rstrip (s : string) : string :=
  match s with
  | EmptyString => EmptyString
  | String c s' =>
      match rstrip s' with
      | EmptyString => if isspace c then EmptyString else String c EmptyString
      | r => String c r
      end
  end.

Definition strip (s : string) : string := rstrip (lstrip s).

(** [s.rstrip('/')]. *)
Fixpoint rstrip_char (ch : ascii) (s : string) : string :=
  match s with
  | EmptyString => EmptyString
  | String c s' =>
      match rstrip_char ch s' with
      | EmptyString => if Ascii.eqb c ch then EmptyString else String c EmptyString
      | r => String c r
      end
  end.

(** What is left of [s] after its prefix [p], if [p] is one. *)
Fixpoint strip_prefix (p s : string) : option string :=
  match p with
  | EmptyString => Some s
  | String c p' =>
      match s with
      | EmptyString => None
      | String d s' => if Ascii.eqb c d then strip_prefix p' s' else None
      end
  end.

Definition startswith (s p : string) : bool :=
  match strip_prefix p s with
  | Some _ => true
  | None => false
  end.

Fixpoint endswith (s p : string) : bool :=
  String.eqb s p ||
  match s with
  | EmptyString => false
  | String _ s' => endswith s' p
  end.

(** [needle in hay] on strings: the substring test. *)
Fixpoint contains (hay needle : string) : bool :=
  String.prefix needle hay ||
  match hay with
  | EmptyString => false
  | String _ hay' => contains hay' needle
  end.

(** [s[0]] and [s[-1]]: [None] stands for Python's [IndexError]. *)
Definition first_char (s : string) : option ascii :=
  match s with
  | EmptyString => None
  | String c _ => Some c
  end.

Fixpoint last_char (s : string) : option ascii :=
  match s with
  | EmptyString => None
  | String c s' =>
      match last_char s' with
      | Some d => Some d
      | None => Some c
      end
  end.

(** [s[-1:]], the last character as a string, empty for the empty string. *)
Definition last_slice (s : string) : string :=
  match last_char s with
  | Some c => String c EmptyString
  | None => EmptyString
  end.

(** [s[:-1]]. *)
Fixpoint drop_last (s : string) : string :=
  match s with
  | EmptyString => EmptyString
  | String c s' =>
      match s' with
      | EmptyString => EmptyString
      | _ => String c (drop_last s')
      end
  end.

Definition between (lo hi n : nat) : bool := ((lo <=? n) && (n <=? hi))%nat.

(** Letters of the Latin-1 range that Unicode puts in XID_Start. *)
Definition latin1_letter (n : nat) : bool :=
  (n =? 170)%nat || (n =? 181)%nat || (n =? 186)%nat
  || between 192 214 n || between 216 246 n || between 248 255 n.

Definition xid_start (c : ascii) : bool :=
  let n := nat_of_ascii c in
  between 65 90 n || between 97 122 n || (n =? 95)%nat || latin1_letter n.

Definition xid_continue (c : ascii) : bool :=
  let n := nat_of_ascii c in
  xid_start c || between 48 57 n || (n =? 183)%nat.

Fixpoint all_chars (p : ascii -> bool) (s : string) : bool :=
  match s with
  | EmptyString => true
  | String c s' => p c && all_chars p s'
  end.

(** [str.isidentifier]. *)
Definition isidentifier (s : string) : bool :=
  match s with
  | EmptyString => false
  | String c s' => xid_start c && all_chars xid_continue s'
  end.

Definition is_upper (c : ascii) : bool := between 65 90 (nat_of_ascii c).
Definition is_lower (c : ascii) : bool := between 97 122 (nat_of_ascii c).
Definition to_upper (c : ascii) : ascii :=
  if is_lower c then ascii_of_nat (nat_of_ascii c - 32) else c.
Definition to_lower (c : ascii) : ascii :=
  if is_upper c then ascii_of_nat (nat_of_ascii c + 32) else c.

(** [str.title] on ASCII text: a letter that follows a letter is lowered,
    any other letter is raised. *)
Fixpoint title_from (prev_cased : bool) (s : string) : string :=
  match s with
  | EmptyString => EmptyString
  | String c s' =>
      let cased := is_upper c || is_lower c in
      String (if prev_cased then to_lower c else to_upper c) (title_from cased s')
  end.

Definition title (s : string) : string := title_from false s.

(** [sep.join(parts)]. *)
Definition join (sep : string) (parts : list string) : string :=
  String.concat sep parts.

(** [s.split()]: the words between runs of white space. *)
Fixpoint split_ws (s : string) : list string :=
  match s with
  | EmptyString => []
  | String c s' =>
      if isspace c then split_ws s'
      else
        match s' with
        | EmptyString => [String c EmptyString]
        | String d _ =>
            if isspace d then String c EmptyString :: split_ws s'
            else match split_ws s' with
                 | w :: ws => String c w :: ws
                 | [] => [String c EmptyString]
                 end
        end
  end.

(** [s.split(sep)[0]] for a separator that is not empty: the text before
    the first occurrence of [sep], all of [s] when there is none. *)
Fixpoint before (sep s : string) : string :=
  if String.prefix sep s then EmptyString
  else match s with
       | EmptyString => EmptyString
       | String c s' => String c (before sep s')
       end.

(** The line boundaries of [str.splitlines] below 256. *)
Definition linebreak (c : ascii) : bool :=
  let n := nat_of_ascii c in
  between 10 13 n || between 28 30 n || (n =? 133)%nat.

(** [s.splitlines()]: the lines without their ends; a carriage return
    followed by a line feed is one boundary.  [after_cr] says that the
    character before [s] was a carriage return. *)
Fixpoint splitlines_from (after_cr : bool) (s : string) : list string :=
  match s with
  | EmptyString => []
  | String c s' =>
      if after_cr && Ascii.eqb c "010"%char then splitlines_from false s'
      else if linebreak c then
        EmptyString :: splitlines_from (Ascii.eqb c "013"%char) s'
      else match splitlines_from false s' with
           | l :: ls => String c l :: ls
           | [] => [String c EmptyString]
           end
  end.

Definition splitlines (s : string) : list string := splitlines_from false s.

End PyStr.

(** ** [os.path] (POSIX flavour) *)

Module OsPath.

Definition sep : ascii := "/"%char.

(** [os.path.join(a, b)]. *)
Definition join (a b : string) : string :=
  if PyStr.startswith b "/" then b
  else if String.eqb a "" || PyStr.endswith a "/" then a +:+ b
  else a +:+ "/" +:+ b.

Definition join3 (a b c : string) : string := join (join a b) c.

(** [os.path.split]: head and tail around the last slash; the head loses
    its trailing slashes unless it consists of slashes only. *)
Definition split (p : string) : string * string :=
  match PyStr.rcut sep p with
  | None => (EmptyString, p)
  | Some (h, t) =>
      let head := h +:+ "/" in
      (match PyStr.rstrip_char sep head with
       | EmptyString => head
       | stripped => stripped
       end, t)
  end.

Definition dirname (p : string) : string := fst (split p).
Definition basename (p : string) : string := snd (split p).

(** Does a file name consist of dots only up to its last dot?  Then
    [splitext] reports no extension (hidden files such as [.bashrc]). *)
Definition only_dots (s : string) : bool :=
  PyStr.all_chars (fun c => Ascii.eqb c "."%char) s.

(** [os.path.splitext]: the extension starts at the last dot of the last
    component, unless only dots precede it there. *)
Definition splitext (p : string) : string * string :=
  let '(dir, file) :=
    match PyStr.rcut sep p with
    | None => (EmptyString, p)
    | Some (h, t) => (h +:+ "/", t)
    end in
  match PyStr.rcut "."%char file with
  | None => (p, EmptyString)
  | Some (stem, ext) =>
      if only_dots stem then (p, EmptyString)
      else (dir +:+ stem, "." +:+ ext)
  end.

End OsPath.


(** ** Exceptions *)

(** The exception classes that occur, by their Python names. *)
Inductive exc_class :=
| ValueError | IndexError | KeyError | NameError | AttributeError
| UnboundLocalError | RuntimeError | CalledProcessError
| OSError | FileNotFoundError | NotADirectoryError | IsADirectoryError.

Global Instance exc_class_eq_dec : EqDecision exc_class.
Proof. solve_decision. Defined.

(** [issubclass(c, OSError)]; [IOError] is an alias of [OSError], so this
    is what [except IOError] handles. *)
Definition is_OSError (c : exc_class) : bool :=
  match c with
  | OSError | FileNotFoundError | NotADirectoryError | IsADirectoryError => true
  | _ => false
  end.

(** An exception: its class, its message text and, where the message is
    built with the [%] operator, the values interpolated into it. *)
Record exc := Exc {
  exc_class_of : exc_class;
  exc_text : string;
  exc_args : list string
}.

Global Instance exc_eq_dec : EqDecision exc.
Proof. solve_decision. Defined.

(** A computation that returns or raises. *)
Inductive result (A : Type) :=
| Ok (a : A)
| Raise (e : exc).
Arguments Ok {A} a.
Arguments Raise {A} e.

Global Instance result_ret : MRet result := fun A a => Ok a.
Global Instance result_bind : MBind result := fun A B f m =>
  match m with
  | Ok a => f a
  | Raise e => Raise e
  end.

(** [try: body except cls: handler]. *)
Definition try_except {A} (body : result A) (handles : exc_class -> bool)
    (handler : exc -> result A) : result A :=
  match body with
  | Ok a => Ok a
  | Raise e => if handles (exc_class_of e) then handler e else Raise e
  end.

(** [a, b = l]: unpacking a list into two names. *)
Definition unpack2 (l : list string) : result (string * string) :=
  match l with
  | [a; b] => Ok (a, b)
  | [] => Raise (Exc ValueError "not enough values to unpack (expected 2, got 0)" [])
  | [_] => Raise (Exc ValueError "not enough values to unpack (expected 2, got 1)" [])
  | _ => Raise (Exc ValueError "too many values to unpack (expected 2)" [])
  end.

(** [s[-1]]. *)
Definition index_last (s : string) : result ascii :=
  match PyStr.last_char s with
  | Some c => Ok c
  | None => Raise (Exc IndexError "string index out of range" [])
  end.

(** [s[0]]. *)
Definition index_first (s : string) : result ascii :=
  match PyStr.first_char s with
  | Some c => Ok c
  | None => Raise (Exc IndexError "string index out of range" [])
  end.

(** ** Environment variable rules *)

(** An [EnvVarRule]: (name, operator, value). *)
Definition rule : Type := string * string * string.

(** The [ValueError]s of [parse_env_vars]; the design names both
    [InvalidInput]. *)
Definition invalid_variable_form (spec : string) : exc :=
  Exc ValueError "Invalid variable %r. Must be in the form NAME=VALUE" [spec].

Definition invalid_variable_name (name : string) : exc :=
  Exc ValueError "Invalid variable name %r" [name].

(** The guarded statement of [parse_env_vars]:
    [name, value = spec.split('=',1)]. *)
Definition parse_env_vars_split (spec : string) : result (string * string) :=
  unpack2 (PyStr.split1 "="%char spec).

(** One round of the loop of [parse_env_vars], for one [spec]. *)
Definition parse_env_vars_body (spec : string) : result rule :=
  let spec := PyStr.lstrip spec in
  let assign := "=" in
  '(name, value) ← try_except (parse_env_vars_split spec)
                     (fun c => bool_decide (c = IndexError))
                     (fun _ => Raise (invalid_variable_form spec));
  '(name, assign) ←
     (if PyStr.contains "?+:" (PyStr.last_slice name) then
        c ← index_last name;
        Ok (PyStr.drop_last name, String c "=")
      else Ok (name, assign));
  if negb (PyStr.isidentifier name) then Raise (invalid_variable_name name)
  else Ok (name, assign, value).

(** The loop: [parsed] grows by one rule per [spec]; the first exception
    ends it. *)
Fixpoint parse_env_vars_loop (parsed : list rule) (env_vars : list string)
    : result (list rule) :=
  match env_vars with
  | [] => Ok parsed
  | spec :: rest =>
      r ← parse_env_vars_body spec;
      parse_env_vars_loop (parsed ++ [r]) rest
  end.

Definition parse_env_vars (env_vars : list string) : result (list rule) :=
  parse_env_vars_loop [] env_vars.

(** ** The file system and the world around the program *)

(** A Python dictionary with string keys and values ([build_time_vars]),
    and a [SimpleNamespace] such as the [context] of [venv]. *)
Abbreviation dict := (gmap string string).

(** An entry of the file system, keyed by its path.  [File text vars] is
    a regular file: [text] is what reading it returns and [vars] is the
    [build_time_vars] dictionary that executing it as a Python module
    defines ([None] when the module defines no such attribute).
    [NoAccess] is a regular file the process may not read. *)
Inductive node :=
| Dir
| File (text : string) (vars : option dict)
| NoAccess.

Global Instance node_eq_dec : EqDecision node.
Proof. solve_decision. Defined.

Abbreviation filesystem := (gmap string node).

(** What the program does to the world, in order. *)
Inductive event :=
| FsRead (op : string) (path : string)
| FsWrite (op : string) (path : string)
| Spawn (cmdline : list string).

Definition mutates (e : event) : bool :=
  match e with
  | FsWrite _ _ => true
  | _ => false
  end.

Definition touches_fs (e : event) : bool :=
  match e with
  | FsRead _ _ | FsWrite _ _ => true
  | Spawn _ => false
  end.

(** How a child process ends: with an exit status and its output, or not
    started at all because the program was not found. *)
Inductive proc_outcome :=
| Exited (status : Z) (stdout : string)
| NoSuchProgram.

(** The interpreter that runs the tool (build-python), the standard
    library services the program calls without this development
    re-implementing them, and the processes it can start. *)
Record Runtime := {
  (** [sysconfig.get_config_var('VERSION')] and ['py_version_short'] *)
  config_VERSION : string;
  config_py_version_short : string;
  sys_platform : string;
  platform_machine : string;
  (** [os.path.abspath] *)
  abspath : string -> string;
  (** [glob.glob], on the current file system *)
  glob_glob : filesystem -> string -> list string;
  (** [sysconfig._is_python_source_dir] *)
  _is_python_source_dir : filesystem -> string -> bool;
  (** [shlex.split] *)
  shlex_split : string -> result (list string);
  (** the outcome of running a command line *)
  spawn : list string -> proc_outcome;
  (** [sys.implementation.cache_tag] *)
  cache_tag : string;
  (** the import system's verdict on the cached bytecode of a source
      file: does it pass validation against the source (time stamp and
      size)? *)
  bytecode_valid : filesystem -> string -> bool;
  (** may the import system cache the bytecode of a source file:
      [sys.dont_write_bytecode] is off and the place can be written *)
  bytecode_writable : filesystem -> string -> bool;
  (** [venv.EnvBuilder.ensure_directories]: the context it returns and
      the file system it leaves *)
  venv_ensure_directories : string -> filesystem -> result (dict * filesystem)
}.

(** ** The effect monad *)

Record state := State { fs : filesystem; trace : list event }.

Definition M (A : Type) : Type := state -> result A * state.

Global Instance M_ret : MRet M := fun A a st => (Ok a, st).
Global Instance M_bind : MBind M := fun A B f m st =>
  match m st with
  | (Ok a, st') => f a st'
  | (Raise e, st') => (Raise e, st')
  end.

Definition raise {A} (e : exc) : M A := fun st => (Raise e, st).

Definition lift {A} (r : result A) : M A := fun st => (r, st).

Definition emit (e : event) : M unit :=
  fun st => (Ok tt, State (fs st) (trace st ++ [e])).

Definition get_fs : M filesystem := fun st => (Ok (fs st), st).

Definition put_fs (f : filesystem) : M unit :=
  fun st => (Ok tt, State f (trace st)).

(** [try: body except cls: handler] with effects: the handler runs in
    the state the body left. *)
Definition try_exceptM {A} (body : M A) (handles : exc_class -> bool)
    (handler : exc -> M A) : M A :=
  fun st =>
    match body st with
    | (Ok a, st') => (Ok a, st')
    | (Raise e, st') =>
        if handles (exc_class_of e) then handler e st' else (Raise e, st')
    end.

(** [for x in l: body(x)]. *)
Fixpoint for_each {A} (l : list A) (body : A -> M unit) : M unit :=
  match l with
  | [] => mret tt
  | x :: l' => body x;; for_each l' body
  end.

(** Evaluating a name that is bound nowhere. *)
Definition unbound_name {A} (name : string) : M A :=
  raise (Exc NameError "name %r is not defined" [name]).

(** *** File system primitives *)

(** What a path names.  The keys of the file system are normalised
    absolute paths, as [os.path.abspath] returns them and [create]
    passes them on; a directory is also found under its path followed
    by slashes, a file is not, and the empty path names nothing. *)
Definition lookup_path (f : filesystem) (p : string) : option node :=
  if String.eqb p "" then None
  else match f !! p with
       | Some n => Some n
       | None =>
           if PyStr.endswith p "/" then
             match f !! PyStr.rstrip_char "/" p with
             | Some Dir => Some Dir
             | _ => None
             end
           else None
       end.

Definition no_such_file {A} (p : string) : M A :=
  raise (Exc FileNotFoundError "[Errno 2] No such file or directory: %r" [p]).

(** Something exists at [p]; it is a regular file; it is a regular file
    the process can read; it is a directory. *)
Definition present (f : filesystem) (p : string) : bool :=
  match lookup_path f p with
  | Some _ => true
  | None => false
  end.

Definition regular (f : filesystem) (p : string) : bool :=
  match lookup_path f p with
  | Some (File _ _) | Some NoAccess => true
  | _ => false
  end.

Definition readable (f : filesystem) (p : string) : bool :=
  match lookup_path f p with
  | Some (File _ _) => true
  | _ => false
  end.

Definition directory (f : filesystem) (p : string) : bool :=
  match lookup_path f p with
  | Some Dir => true
  | _ => false
  end.

Definition os_path_exists (p : string) : M bool :=
  emit (FsRead "exists" p);;
  f ← get_fs;
  mret (present f p).

Definition os_path_isfile (p : string) : M bool :=
  emit (FsRead "isfile" p);;
  f ← get_fs;
  mret (regular f p).

Definition os_path_isdir (p : string) : M bool :=
  emit (FsRead "isdir" p);;
  f ← get_fs;
  mret (directory f p).

(** [open(p).read()]. *)
Definition read_text (p : string) : M string :=
  emit (FsRead "open" p);;
  f ← get_fs;
  match lookup_path f p with
  | Some (File text _) => mret text
  | Some Dir => raise (Exc IsADirectoryError "[Errno 21] Is a directory: %r" [p])
  | Some NoAccess => raise (Exc OSError "[Errno 13] Permission denied: %r" [p])
  | None => no_such_file p
  end.

(** A loaded module, seen through its [build_time_vars] attribute. *)
Definition pymodule : Type := option dict.

(** [importlib.util.cache_from_source]: the bytecode cache of a source
    file, [__pycache__/<name>.<tag>.pyc] beside it. *)
Definition cache_from_source (tag : string) (path : string) : string :=
  let '(head, tail) := OsPath.split path in
  let almost_filename :=
    match PyStr.rcut "."%char tail with
    | Some (base, rest) =>
        (if String.eqb base "" then rest else base) +:+ "." +:+ tag
    | None => tail +:+ tag
    end in
  OsPath.join (OsPath.join head "__pycache__") (almost_filename +:+ ".pyc").

(** The source loader caching the bytecode of [source] at [cache]: the
    [__pycache__] directory is made if it is missing and the file is
    written; where that cannot be done nothing happens, the import
    system ignores the failure. *)
Definition cache_bytecode (R : Runtime) (source cache : string)
    (vars : option dict) : M unit :=
  f ← get_fs;
  let dir := OsPath.dirname cache in
  if bytecode_writable R f source
     && match f !! dir with Some Dir | None => true | Some _ => false end
     && match f !! cache with Some Dir => false | _ => true end
  then
    emit (FsWrite "bytecode" cache);;
    put_fs (<[cache := File "" vars]>
              (match f !! dir with
               | Some _ => f
               | None => <[dir := Dir]> f
               end))
  else mret tt.

(** [spec.loader.exec_module] on a file, for the loader that
    [spec_from_file_location] picks by the suffix: a [.py] file goes to
    the source loader, which runs cached bytecode that passes validation
    instead of the source and otherwise runs the source and caches its
    bytecode; any other file (the program imports [.py] and [.pyc]
    files only) goes to the sourceless loader, which just runs it. *)
Definition exec_module (R : Runtime) (p : string) : M pymodule :=
  emit (FsRead "import" p);;
  f ← get_fs;
  match lookup_path f p with
  | Some (File _ vars) =>
      if PyStr.endswith p ".py" then
        let cache := cache_from_source (cache_tag R) p in
        emit (FsRead "bytecode" cache);;
        match (if bytecode_valid R f p then lookup_path f cache else None) with
        | Some (File _ cached) => mret cached
        | _ => cache_bytecode R p cache vars;; mret vars
        end
      else mret vars
  | Some Dir => raise (Exc IsADirectoryError "[Errno 21] Is a directory: %r" [p])
  | Some NoAccess => raise (Exc OSError "[Errno 13] Permission denied: %r" [p])
  | None => no_such_file p
  end.

(** [sysconfig.get_config_var(name)] of the running interpreter, which
    may have to read the interpreter's own build configuration for it. *)
Definition get_config_var (name : string) (value : string) : M string :=
  emit (FsRead "sysconfig" name);;
  mret value.

(** [module.build_time_vars]. *)
Definition build_time_vars (m : pymodule) : result dict :=
  match m with
  | Some d => Ok d
  | None => Raise (Exc AttributeError "module has no attribute %r" ["build_time_vars"])
  end.

(** [d[key]]. *)
Definition getitem (d : dict) (key : string) : result string :=
  match d !! key with
  | Some v => Ok v
  | None => Raise (Exc KeyError "%r" [key])
  end.

(** Is the path [k] the entry [p] or something beneath it? *)
Definition beneath (p k : string) : bool :=
  String.eqb k p || PyStr.startswith k (p +:+ "/").

(** The name of [k] as an entry of directory [d], if it is one. *)
Definition entry_name (d k : string) : option string :=
  let dslash := if PyStr.endswith d "/" then d else d +:+ "/" in
  match PyStr.strip_prefix dslash k with
  | Some name =>
      if String.eqb name "" then None
      else match PyStr.cut "/"%char name with
           | None => Some name
           | Some _ => None
           end
  | None => None
  end.

(** [os.listdir]. *)
Definition os_listdir (d : string) : M (list string) :=
  emit (FsRead "listdir" d);;
  f ← get_fs;
  match lookup_path f d with
  | Some Dir => mret (omap (entry_name d) (map_to_list f).*1)
  | Some _ => raise (Exc NotADirectoryError "[Errno 20] Not a directory: %r" [d])
  | None => no_such_file d
  end.

(** The lines of a text file opened in text mode; carriage return and
    line feed both end a line. *)
Fixpoint file_lines (s : string) : list string :=
  match s with
  | EmptyString => [EmptyString]
  | String c s' =>
      if Ascii.eqb c "010"%char || Ascii.eqb c "013"%char
      then EmptyString :: file_lines s'
      else match file_lines s' with
           | l :: ls => String c l :: ls
           | [] => [String c EmptyString]
           end
  end.

(** The lines a text file yields when iterated over, each with its line
    feed; the last one may lack it. *)
Fixpoint text_lines (s : string) : list string :=
  match s with
  | EmptyString => []
  | String c s' =>
      if Ascii.eqb c "010"%char then String c EmptyString :: text_lines s'
      else match text_lines s' with
           | l :: ls => String c l :: ls
           | [] => [String c EmptyString]
           end
  end.

(** Modelled from the spec: [utils.remove_path] is not part of the
    source at hand; the design says the directory manager must "remove
    every existing entry", so a removed path is gone with everything
    beneath it. *)
Definition remove_path (p : string) : M unit :=
  emit (FsWrite "remove" p);;
  f ← get_fs;
  put_fs (filter (fun kv => beneath p kv.1 = false) f).

(** Modelled from the spec: [utils.mkdir_if_needed] is not part of the
    source at hand; the design says the manager must "additionally
    create a support-library subdirectory", so a missing path becomes a
    directory and an existing one is left alone. *)
Definition mkdir_if_needed (p : string) : M unit :=
  emit (FsWrite "mkdir" p);;
  f ← get_fs;
  match f !! p with
  | Some _ => mret tt
  | None => put_fs (<[p := Dir]> f)
  end.

(** Modelled from the spec: [utils.overwrite_file] is not part of the
    source at hand; the design says the manager must "write a small
    descriptor file", so the path holds the new text afterwards. *)
Definition overwrite_file (p : string) (text : string) : M unit :=
  emit (FsWrite "write" p);;
  f ← get_fs;
  put_fs (<[p := File text None]> f).

(** ** [CrossEnvBuilder] *)

Module CrossEnvBuilder.

(** The keyword arguments of the constructor.  [clear] is [None] for a
    false value; [cross_prefix] and [host_sysroot] are [None] when not
    given. *)
Record args := {
  host_python : string;
  extra_env_vars : list rule;
  build_system_site_packages : bool;
  clear : option string;
  cross_prefix : option string;
  with_cross_pip : bool;
  with_build_pip : bool;
  host_sysroot : option string
}.

(** What [find_sysconfig_data] stores on [self]. *)
Record sysconfig := {
  host_sysconfigdata : pymodule;
  host_sysconfigdata_file : string;
  host_sysconfigdata_name : string
}.

(** What [find_host_python] stores on [self]. *)
Record host_info := {
  host_project_base : string;
  host_makefile : string;
  host_home : string;
  host_sysconfig : sysconfig;
  host_cc : list string;
  host_version : string;
  host_platform : string
}.

(** The builder after construction. *)
Record builder := {
  self_host : host_info;
  self_host_sysroot : option string;
  self_build_system_site_packages : bool;
  self_extra_env_vars : list rule;
  self_clear_build : bool;
  self_clear_cross : bool;
  self_with_cross_pip : bool;
  self_with_build_pip : bool;
  self_cross_prefix : option string
}.

(** The exceptions the builder raises itself, one per [raise] statement,
    with the name the design gives each kind of failure. *)

(** [NotFound] *)
Definition host_does_not_exist (host : string) : exc :=
  Exc FileNotFoundError "%s does not exist" [host].

(** [InvalidInput] *)
Definition host_not_a_file (host : string) : exc :=
  Exc ValueError "Expected a path to a Python executable. Got %s" [host].

(** [BuildIncomplete] *)
Definition build_incomplete (s : string) : exc :=
  Exc OSError "Cannot read %s: Build the host Python first " [s].

(** [CorruptInstallation] *)
Definition corrupt_installation : exc :=
  Exc ValueError "Malformed Python installation!" [].

(** [ConfigNotFound] *)
Definition config_not_found : exc :=
  Exc FileNotFoundError "No _sysconfigdata*.py found in host lib" [].

(** [NotFound] *)
Definition cannot_find_makefile : exc :=
  Exc FileNotFoundError "Cannot find Makefile" [].

(** [VersionMismatch] *)
Definition version_mismatch (host build : string) : exc :=
  Exc ValueError "Version mismatch: host=%s, build=%s" [host; build].

(** [ToolchainUnavailable] *)
Definition toolchain_unavailable : exc :=
  Exc RuntimeError "Cannot run cross-compiler! Extension modules won't build!" [].

(** [InvalidInput] *)
Definition cross_pip_without_build_pip : exc :=
  Exc ValueError "Cannot have cross-pip without build-pip" [].

(** [x in (a, b, ...)] for the [clear] argument. *)
Definition clear_in (c : option string) (modes : list string) : bool :=
  match c with
  | Some m => bool_decide (m ∈ modes)
  | None => false
  end.

(** The truth value of an optional string: given and not empty. *)
Definition truthy (s : option string) : bool :=
  match s with
  | Some v => negb (String.eqb v "")
  | None => false
  end.

(** The sort key of [find_sysconfig_data],
    [lambda x: len(x.split('.',1)[1])]. *)
Definition sort_key (x : string) : result nat :=
  match PyStr.split1 "."%char x !! 1%nat with
  | Some ext => Ok (String.length ext)
  | None => Raise (Exc IndexError "list index out of range" [])
  end.

(** [sorted(xs, key=...)] once every key is computed: a stable insertion
    sort on the keys. *)
Fixpoint insert_by_key (kx : nat * string) (l : list (nat * string))
    : list (nat * string) :=
  match l with
  | [] => [kx]
  | ky :: l' =>
      if (kx.1 <=? ky.1)%nat then kx :: ky :: l'
      else ky :: insert_by_key kx l'
  end.

Definition sort_by_key (l : list (nat * string)) : list (nat * string) :=
  foldr insert_by_key [] l.

(** [for x in xs: key(x)], the first exception wins. *)
Fixpoint with_keys (xs : list string) : result (list (nat * string)) :=
  match xs with
  | [] => Ok []
  | x :: xs' =>
      k ← sort_key x;
      rest ← with_keys xs';
      Ok ((k, x) :: rest)
  end.

Definition sorted (xs : list string) : result (list string) :=
  keyed ← with_keys xs;
  Ok (map snd (sort_by_key keyed)).

(** The scan of the Makefile for the host platform: the first line that
    starts with the variable decides, and an empty value keeps the
    default. *)
Fixpoint scan_makefile (default : string) (lines : list string) : string :=
  match lines with
  | [] => default
  | line :: rest =>
      let line := PyStr.strip line in
      if PyStr.startswith line "_PYTHON_HOST_PLATFORM=" then
        let host_platform := List.last (PyStr.split1 "="%char line) "" in
        if negb (String.eqb host_platform "") then host_platform
        else default
      else scan_makefile default rest
  end.

(** The scan of [pyvenv.cfg] for its [home] key. *)
Fixpoint scan_pyvenv (lines : list string) : option string :=
  match lines with
  | [] => None
  | line :: rest =>
      let '(key, _, val) := PyStr.partition "="%char line in
      let key := PyStr.strip key in
      let val := PyStr.strip val in
      if String.eqb key "home" then Some (OsPath.dirname val)
      else scan_pyvenv rest
  end.

(** The loop of [make_build_python] over the output of the build
    interpreter that prints its [sys.path]: [context.build_sys_path]
    grows by every line that is not blank, without its surrounding
    white space. *)
Fixpoint make_build_python_sys_path_loop (out : list string)
    (build_sys_path : list string) : list string :=
  match out with
  | [] => build_sys_path
  | line :: rest =>
      let line := PyStr.strip line in
      if negb (String.eqb line "")
      then make_build_python_sys_path_loop rest (build_sys_path ++ [line])
      else make_build_python_sys_path_loop rest build_sys_path
  end.

Definition make_build_python_sys_path (output : string) : list string :=
  make_build_python_sys_path_loop (PyStr.splitlines output) [].

(** What the loop of [make_build_python] over the output of
    [pip freeze --all] sets on the context: [build_pip_version] stays
    unset ([None]) until a requirement for pip is met. *)
Record pip_context := {
  build_pip_version : option string;
  build_pip_reqs : list string
}.

Fixpoint make_build_python_reqs_loop (all_reqs : list string)
    (context : pip_context) : pip_context :=
  match all_reqs with
  | [] => context
  | req :: rest =>
      let package := PyStr.before "==" req in
      if String.eqb package "pip" then
        make_build_python_reqs_loop rest
          {| build_pip_version := Some req;
             build_pip_reqs := build_pip_reqs context ++ [req] |}
      else if String.eqb package "setuptools" then
        make_build_python_reqs_loop rest
          {| build_pip_version := build_pip_version context;
             build_pip_reqs := build_pip_reqs context ++ [req] |}
      else make_build_python_reqs_loop rest context
  end.

Definition make_build_python_reqs (reqs : string) : pip_context :=
  make_build_python_reqs_loop (PyStr.split_ws reqs)
    {| build_pip_version := None; build_pip_reqs := [] |}.

(** The loop of [make_cross_python] that copies [pyvenv.cfg] line by
    line: a line whose first two words are [home] and [=] is replaced,
    and [written] is what has gone to the new file so far. *)
Definition make_cross_python_home_line (line : string) : bool :=
  bool_decide (take 2 (PyStr.split_ws line) = ["home"; "="]).

Fixpoint make_cross_python_cfg_loop (host_project_base : string)
    (inp : list string) (written : string) : string :=
  match inp with
  | [] => written
  | line :: rest =>
      let line :=
        if make_cross_python_home_line line
        then "home = " +:+ host_project_base +:+ String "010" ""
        else line in
      make_cross_python_cfg_loop host_project_base rest (written +:+ line)
  end.

Definition make_cross_python_cfg (host_project_base : string) (text : string)
    : string :=
  make_cross_python_cfg_loop host_project_base (text_lines text) "".

Section methods.

Context (R : Runtime).

Definition glob (pattern : string) : M (list string) :=
  emit (FsRead "glob" pattern);;
  f ← get_fs;
  mret (glob_glob R f pattern).

Definition is_python_source_dir (d : string) : M bool :=
  emit (FsRead "source_dir" d);;
  f ← get_fs;
  mret (_is_python_source_dir R f d).

(** [subprocess.check_output(cmdline, universal_newlines=True)]: a
    non-zero exit status raises [CalledProcessError], a program that
    cannot be found raises [FileNotFoundError]. *)
Definition check_output (cmdline : list string) : M string :=
  emit (Spawn cmdline);;
  match spawn R cmdline with
  | Exited 0 out => mret out
  | Exited _ _ =>
      raise (Exc CalledProcessError "Command %r returned non-zero exit status" cmdline)
  | NoSuchProgram => no_such_file (List.hd "" cmdline)
  end.

Definition find_installed_host_home (host_project_base : string) : M string :=
  let home := OsPath.dirname host_project_base in
  let pyvenv := OsPath.join home "pyvenv.cfg" in
  present ← os_path_exists pyvenv;
  if (present : bool) then
    text ← read_text pyvenv;
    match scan_pyvenv (file_lines text) with
    | Some found => mret found
    | None => mret home
    end
  else mret home.

(** First loop of [find_sysconfig_data]: every match of the pattern
    under every path. *)
Fixpoint find_sysconfig_data_glob (paths : list string) : M (list string) :=
  match paths with
  | [] => mret []
  | path :: rest =>
      let pattern := OsPath.join path "_sysconfigdata*.py*" in
      found ← glob pattern;
      more ← find_sysconfig_data_glob rest;
      mret ((found ++ more)%list)
  end.

(** Second loop: the set of regular files among them that end in [.py]
    or [.pyc]. *)
Fixpoint find_sysconfig_data_filter (maybe : list string) (acc : gset string)
    : M (gset string) :=
  match maybe with
  | [] => mret acc
  | filename :: rest =>
      isf ← os_path_isfile filename;
      if (isf : bool) && bool_decide ((OsPath.splitext filename).2 ∈ [".py"; ".pyc"])
      then find_sysconfig_data_filter rest ({[ filename ]} ∪ acc)
      else find_sysconfig_data_filter rest acc
  end.

(** Third loop: load every candidate in order; the first becomes
    authoritative and every later one must record the same variables. *)
Fixpoint find_sysconfig_data_load (sysconfig_paths : list string)
    (chosen : option sysconfig) : M (option sysconfig) :=
  match sysconfig_paths with
  | [] => mret chosen
  | path :: rest =>
      let basename := OsPath.basename path in
      let name := (OsPath.splitext basename).1 in
      syscfg ← exec_module R path;
      match chosen with
      | None =>
          find_sysconfig_data_load rest
            (Some {| host_sysconfigdata := syscfg;
                     host_sysconfigdata_file := path;
                     host_sysconfigdata_name := name |})
      | Some c =>
          mine ← lift (build_time_vars (host_sysconfigdata c));
          theirs ← lift (build_time_vars syscfg);
          if bool_decide (mine ≠ theirs) then raise corrupt_installation
          else find_sysconfig_data_load rest chosen
      end
  end.

(** From a set of candidates on: sort, load and compare. *)
Definition find_sysconfig_data_select (sysconfig_paths : gset string)
    : M sysconfig :=
  sysconfig_paths ← lift (sorted (elements sysconfig_paths));
  chosen ← find_sysconfig_data_load sysconfig_paths None;
  match chosen with
  | None => raise config_not_found
  | Some c => mret c
  end.

Definition find_sysconfig_data (paths : list string) : M sysconfig :=
  maybe ← find_sysconfig_data_glob paths;
  sysconfig_paths ← find_sysconfig_data_filter maybe ∅;
  find_sysconfig_data_select sysconfig_paths.

(** [find_host_python] between the query for the running version that
    opens it and the sanity check that ends it. *)
Definition find_host_python_resolve (host : string) : M host_info :=
  let host := abspath R host in
  present ← os_path_exists host;
  host_project_base ←
    (if negb present then raise (host_does_not_exist host)
     else
       isf ← os_path_isfile host;
       if negb isf then raise (host_not_a_file host)
       else mret (OsPath.dirname host));
  in_tree ← is_python_source_dir host_project_base;
  '(host_makefile, host_home, sysconfig_paths) ←
    (if (in_tree : bool) then
       let host_makefile := OsPath.join host_project_base "Makefile" in
       let pybuilddir := OsPath.join host_project_base "pybuilddir.txt" in
       build_dir ← try_exceptM
                     (text ← read_text pybuilddir; mret (PyStr.strip text))
                     is_OSError
                     (fun _ => s ← unbound_name "s"; raise (build_incomplete s));
       mret (host_makefile, host_project_base,
             [OsPath.join host_project_base build_dir])
     else
       host_home ← find_installed_host_home host_project_base;
       py_version_short ← get_config_var "py_version_short"
                            (config_py_version_short R);
       let python_ver := "python" +:+ py_version_short in
       let libdir := OsPath.join3 host_home "lib" python_ver in
       let sysconfig_paths := [libdir; OsPath.join libdir "*"] in
       makefile ← glob (OsPath.join3 libdir "*" "Makefile");
       mret (match makefile with
             | [] => ""
             | first :: _ => first
             end, host_home, sysconfig_paths));
  syscfg ← find_sysconfig_data sysconfig_paths;
  vars ← lift (build_time_vars (host_sysconfigdata syscfg));
  cc ← lift (getitem vars "CC");
  host_cc ← lift (shlex_split R cc);
  host_version ← lift (getitem vars "VERSION");
  has_makefile ← os_path_exists host_makefile;
  if negb has_makefile then raise cannot_find_makefile
  else
    text ← read_text host_makefile;
    mret {| host_project_base := host_project_base;
            host_makefile := host_makefile;
            host_home := host_home;
            host_sysconfig := syscfg;
            host_cc := host_cc;
            host_version := host_version;
            host_platform := scan_makefile (sys_platform R) (file_lines text) |}.

Definition find_host_python (host : string) : M host_info :=
  build_version ← get_config_var "VERSION" (config_VERSION R);
  info ← find_host_python_resolve host;
  if negb (String.eqb (host_version info) build_version)
  then raise (version_mismatch (host_version info) build_version)
  else mret info.

Definition run_compiler (host_cc : list string) (arg : string) : M (option string) :=
  let cmdline := (host_cc ++ [arg])%list in
  try_exceptM (out ← check_output cmdline; mret (Some out))
              (fun c => bool_decide (c = CalledProcessError))
              (fun _ => mret None).

(** [find_compiler_info] returns the new value of [self.host_sysroot]. *)
Definition find_compiler_info (host_cc : list string) (host_sysroot : option string)
    : M (option string) :=
  version ← run_compiler host_cc "--version";
  match version with
  | None => raise toolchain_unavailable
  | Some _ =>
      match host_sysroot with
      | None =>
          queried ← run_compiler host_cc "-print-sysroot";
          if truthy queried then mret (PyStr.strip <$> queried)
          else mret queried
      | Some _ => mret host_sysroot
      end
  end.

Definition __init__ (a : args) : M builder :=
  info ← find_host_python (host_python a);
  sysroot ← find_compiler_info (host_cc info) (host_sysroot a);
  let clear_build := clear_in (clear a) ["default"; "build"; "both"] in
  if with_cross_pip a && negb (with_build_pip a)
  then raise cross_pip_without_build_pip
  else
    let '(prefix, clear_cross) :=
      if truthy (cross_prefix a)
      then (abspath R <$> cross_prefix a, clear_in (clear a) ["cross"; "both"])
      else (None, clear_in (clear a) ["default"; "cross"; "both"]) in
    mret {| self_host := info;
            self_host_sysroot := sysroot;
            self_build_system_site_packages := build_system_site_packages a;
            self_extra_env_vars := extra_env_vars a;
            self_clear_build := clear_build;
            self_clear_cross := clear_cross;
            self_with_cross_pip := with_cross_pip a;
            self_with_build_pip := with_build_pip a;
            self_cross_prefix := prefix |}.

(** The clearing step that opens [ensure_directories]. *)
Definition ensure_directories_clear (self : builder) (env_dir : string) : M unit :=
  present ← os_path_exists env_dir;
  if (present : bool) && (self_clear_cross self || self_clear_build self) then
    subdirs ← os_listdir env_dir;
    for_each subdirs (fun sub =>
      if bool_decide (sub ∈ ["cross"; "build"]) then mret tt
      else remove_path (OsPath.join env_dir sub))
  else mret tt.

(** [super().ensure_directories(env_dir)], the base venv service. *)
Definition super_ensure_directories (env_dir : string) : M dict :=
  emit (FsWrite "venv" env_dir);;
  f ← get_fs;
  '(context, f') ← lift (venv_ensure_directories R env_dir f);
  put_fs f';;
  mret context.

Definition ensure_directories (self : builder) (env_dir : string) : M dict :=
  ensure_directories_clear self env_dir;;
  context ← super_ensure_directories env_dir;
  let lib_path := OsPath.join env_dir "lib" in
  let context := <["lib_path" := lib_path]> context in
  let context := <["exposed_libs" := OsPath.join lib_path "exposed.txt"]> context in
  mkdir_if_needed lib_path;;
  mret context.

(** [context.name]. *)
Definition getattr (context : dict) (name : string) : result string :=
  match context !! name with
  | Some v => Ok v
  | None => Raise (Exc AttributeError "object has no attribute %r" [name])
  end.

(** The [uname] section that [create_configuration] puts together, in
    the order of its keys. *)
Definition create_configuration_uname (self : builder)
    : result (list (string * string)) :=
  let host_info := PyStr.split "-"%char (host_platform (self_host self)) in
  '(sysname, machine) ←
    match host_info with
    | [] =>
        let sysname := sys_platform R in
        Raise (Exc UnboundLocalError
                 "cannot access local variable %r where it is not associated with a value"
                 ["machine"])
    | [_] =>
        c ← index_first (sys_platform R);
        Ok (String c "", platform_machine R)
    | _ =>
        c ← index_first (sys_platform R);
        d ← index_last (sys_platform R);
        Ok (String c "", String d "")
    end;
  Ok [("sysname", PyStr.title sysname);
      ("nodename", "build");
      ("release", "");
      ("version", "");
      ("machine", machine)].

(** [ConfigParser.write] for one section. *)
Definition config_write (section : string) (items : list (string * string)) : string :=
  "[" +:+ section +:+ "]" +:+ String "010" "" +:+
  String.concat "" (map (fun kv => kv.1 +:+ " = " +:+ kv.2 +:+ String "010" "") items)
  +:+ String "010" "".

Definition create_configuration (self : builder) (context : dict) : M dict :=
  uname ← lift (create_configuration_uname self);
  env_dir ← lift (getattr context "env_dir");
  let crossenv_cfg := OsPath.join env_dir "crossenv.cfg" in
  let context := <["crossenv_cfg" := crossenv_cfg]> context in
  overwrite_file crossenv_cfg (config_write "uname" uname);;
  mret context.

(** The part of [make_cross_python] that assembles [extra_envs], the
    rule list the launcher template is rendered with. *)
Definition make_cross_python_extra_envs (self : builder) : M (list rule) :=
  let extra_envs := self_extra_env_vars self in
  match self_host_sysroot self with
  | Some sysroot =>
      if negb (String.eqb sysroot "") then
        libs ← glob (OsPath.join3 sysroot "usr" "lib*");
        let extra_envs :=
          match libs with
          | [] => extra_envs
          | _ => (extra_envs ++ [("LIBRARY_PATH", ":=", PyStr.join ":" libs)])%list
          end in
        let inc := OsPath.join3 sysroot "usr" "include" in
        isd ← os_path_isdir inc;
        if negb isd then mret extra_envs
        else mret ((extra_envs ++ [("CPATH", ":=", inc)])%list)
      else mret extra_envs
  | None => mret extra_envs
  end.

(** [_build_pip_is_unbundled]: pip's vendored [six] is missing from
    the build environment. *)
Definition _build_pip_is_unbundled (build_env_dir : string) : M bool :=
  py_version_short ← get_config_var "py_version_short"
                       (config_py_version_short R);
  let pyver := "python" +:+ py_version_short in
  let bundled_module :=
    OsPath.join (OsPath.join (OsPath.join (OsPath.join (OsPath.join
      (OsPath.join build_env_dir "lib") pyver) "site-packages") "pip")
      "_vendor") "six.py" in
  present ← os_path_exists bundled_module;
  mret (negb present).

End methods.

End CrossEnvBuilder.

(** ** The design's reading of the selection rule

    The design document orders candidates by their secondary extension:
    everything after the first dot of the file name. *)

Definition secondary_extension (path : string) : string :=
  match PyStr.cut "."%char (OsPath.basename path) with
  | Some (_, ext) => ext
  | None => ""
  end.

(** The uname fields the design asks for: the system part and the
    machine part of a [system-machine] platform tag. *)
Definition tag_system (tag : string) : string :=
  List.hd "" (PyStr.split "-"%char tag).

Definition tag_machine (tag : string) : string :=
  List.last (PyStr.split "-"%char tag) "".

(** ** A concrete world for the examples *)

Module Sample.

(** Wildcard matching for one pattern: a star stands for any run of
    characters other than the slash. *)
Fixpoint wildcard (pat : string) (s : string) {struct pat} : bool :=
  match pat with
  | EmptyString => String.eqb s ""
  | String p pat' =>
      if Ascii.eqb p "*"%char then
        (fix star (s : string) : bool :=
           wildcard pat' s ||
           match s with
           | EmptyString => false
           | String c s' => if Ascii.eqb c "/"%char then false else star s'
           end) s
      else
        match s with
        | EmptyString => false
        | String c s' => Ascii.eqb p c && wildcard pat' s'
        end
  end.

Definition glob (f : filesystem) (pattern : string) : list string :=
  List.filter (wildcard pattern) (map fst (map_to_list f)).

(** [_is_python_source_dir] as Python 3.7 and later have it. *)
Definition is_source_dir (f : filesystem) (d : string) : bool :=
  match f !! OsPath.join3 d "Modules" "Setup",
        f !! OsPath.join3 d "Modules" "Setup.local" with
  | Some (File _ _), _ | _, Some (File _ _) => true
  | _, _ => false
  end.

(** [shlex.split] on text without quotes or escapes: the words between
    blanks. *)
Definition words (s : string) : result (list string) :=
  Ok (List.filter (fun w => negb (String.eqb w "")) (PyStr.split " "%char s)).

(** The directories the venv service makes sure of. *)
Definition venv (env_dir : string) (f : filesystem) : result (dict * filesystem) :=
  let dirs := [env_dir; OsPath.join env_dir "include";
               OsPath.join env_dir "lib"; OsPath.join env_dir "bin"] in
  match f !! env_dir with
  | Some (File _ _) | Some NoAccess =>
      Raise (Exc ValueError "Unable to create directory %r" [env_dir])
  | _ =>
      Ok ({[ "env_dir" := env_dir;
             "bin_path" := OsPath.join env_dir "bin";
             "python_exe" := "python3" ]},
          foldr (fun d g => match g !! d with
                            | Some _ => g
                            | None => <[d := Dir]> g
                            end) f dirs)
  end.

(** A build machine: macOS running Python 3.11 with one cross compiler
    on its path. *)
Definition runtime : Runtime := {|
  config_VERSION := "3.11";
  config_py_version_short := "3.11";
  sys_platform := "darwin";
  platform_machine := "x86_64";
  abspath := fun p => p;
  glob_glob := glob;
  _is_python_source_dir := is_source_dir;
  shlex_split := words;
  spawn := fun cmdline =>
    match cmdline with
    | ["aarch64-linux-gnu-gcc"; "--version"] => Exited 0 "gcc 12.2.0"
    | ["aarch64-linux-gnu-gcc"; "-print-sysroot"] => Exited 0 ("/opt/sysroot" +:+ String "010" "")
    | "aarch64-linux-gnu-gcc" :: _ => Exited 1 ""
    | _ => NoSuchProgram
    end;
  cache_tag := "cpython-311";
  bytecode_valid := fun _ _ => true;
  bytecode_writable := fun _ _ => true;
  venv_ensure_directories := venv
|}.

Definition target_vars (version : string) : dict :=
  {[ "CC" := "aarch64-linux-gnu-gcc"; "VERSION" := version ]}.

Definition makefile_text : string :=
  "CC=aarch64-linux-gnu-gcc" +:+ String "010" "" +:+
  "_PYTHON_HOST_PLATFORM=linux-aarch64" +:+ String "010" "".

(** An installed target under [/opt/target] that records [version]. *)
Definition installed (version : string) : filesystem :=
  list_to_map [
    ("/opt/target", Dir);
    ("/opt/target/bin", Dir);
    ("/opt/target/bin/python3", File "" None);
    ("/opt/target/lib", Dir);
    ("/opt/target/lib/python3.11", Dir);
    ("/opt/target/lib/python3.11/_sysconfigdata__linux_aarch64-linux-gnu.py",
       File "" (Some (target_vars version)));
    ("/opt/target/lib/python3.11/config-3.11-aarch64-linux-gnu", Dir);
    ("/opt/target/lib/python3.11/config-3.11-aarch64-linux-gnu/Makefile",
       File makefile_text None)
  ].

(** A source tree in which the interpreter was compiled but the build
    did not get as far as writing [pybuilddir.txt]. *)
Definition unbuilt_tree : filesystem :=
  list_to_map [
    ("/src/cpython", Dir);
    ("/src/cpython/python", File "" None);
    ("/src/cpython/Makefile", File makefile_text None);
    ("/src/cpython/Modules", Dir);
    ("/src/cpython/Modules/Setup", File "" None)
  ].

(** An installed target whose compiler is not on the build machine. *)
Definition foreign_compiler : filesystem :=
  <["/opt/target/lib/python3.11/_sysconfigdata__linux_aarch64-linux-gnu.py"
    := File "" (Some {[ "CC" := "arm-none-eabi-gcc"; "VERSION" := "3.11" ]})]>
    (installed "3.11").

(** An installed target with two copies of its build configuration that
    record the same variables: a compiled one in the library directory
    and the source one in a per-platform subdirectory. *)
Definition compiled_copy : string :=
  "/opt/target/lib/python3.11/_sysconfigdata.pyc".

Definition source_copy : string :=
  "/opt/target/lib/python3.11/plat-aarch64-linux-gnu/_sysconfigdata_m.py".

Definition two_copies : filesystem :=
  list_to_map [
    ("/opt/target", Dir);
    ("/opt/target/bin", Dir);
    ("/opt/target/bin/python3", File "" None);
    ("/opt/target/lib", Dir);
    ("/opt/target/lib/python3.11", Dir);
    (compiled_copy, File "" (Some (target_vars "3.11")));
    ("/opt/target/lib/python3.11/plat-aarch64-linux-gnu", Dir);
    (source_copy, File "" (Some (target_vars "3.11")));
    ("/opt/target/lib/python3.11/config-3.11-aarch64-linux-gnu", Dir);
    ("/opt/target/lib/python3.11/config-3.11-aarch64-linux-gnu/Makefile",
       File makefile_text None)
  ].

(** The installed target of [installed] without its Makefile. *)
Definition without_makefile (version : string) : filesystem :=
  delete "/opt/target/lib/python3.11/config-3.11-aarch64-linux-gnu/Makefile"
    (installed version).

(** An environment directory left by an earlier run. *)
Definition env_tree : filesystem :=
  list_to_map [
    ("/work", Dir);
    ("/work/env", Dir);
    ("/work/env/cross", Dir);
    ("/work/env/cross/pyvenv.cfg", File "home = /usr/bin" None);
    ("/work/env/build", Dir);
    ("/work/env/build/bin", Dir);
    ("/work/env/lib", Dir);
    ("/work/env/lib/site.py", File "" None);
    ("/work/env/bin", Dir);
    ("/work/env/bin/activate", File "" None);
    ("/work/env/crossenv.cfg", File "" None);
    ("/work/other", Dir)
  ].

Definition start (f : filesystem) : state := State f [].

Definition default_args (host : string) : CrossEnvBuilder.args := {|
  CrossEnvBuilder.host_python := host;
  CrossEnvBuilder.extra_env_vars := [];
  CrossEnvBuilder.build_system_site_packages := false;
  CrossEnvBuilder.clear := None;
  CrossEnvBuilder.cross_prefix := None;
  CrossEnvBuilder.with_cross_pip := false;
  CrossEnvBuilder.with_build_pip := false;
  CrossEnvBuilder.host_sysroot := None
|}.

(** A builder for the installed target with the given clear flags. *)
Definition builder_clearing (clear_cross clear_build : bool)
    : CrossEnvBuilder.builder := {|
  CrossEnvBuilder.self_host := {|
    CrossEnvBuilder.host_project_base := "/opt/target/bin";
    CrossEnvBuilder.host_makefile :=
      "/opt/target/lib/python3.11/config-3.11-aarch64-linux-gnu/Makefile";
    CrossEnvBuilder.host_home := "/opt/target";
    CrossEnvBuilder.host_sysconfig := {|
      CrossEnvBuilder.host_sysconfigdata := Some (target_vars "3.11");
      CrossEnvBuilder.host_sysconfigdata_file :=
        "/opt/target/lib/python3.11/_sysconfigdata__linux_aarch64-linux-gnu.py";
      CrossEnvBuilder.host_sysconfigdata_name :=
        "_sysconfigdata__linux_aarch64-linux-gnu" |};
    CrossEnvBuilder.host_cc := ["aarch64-linux-gnu-gcc"];
    CrossEnvBuilder.host_version := "3.11";
    CrossEnvBuilder.host_platform := "linux-aarch64" |};
  CrossEnvBuilder.self_host_sysroot := Some "/opt/sysroot";
  CrossEnvBuilder.self_build_system_site_packages := false;
  CrossEnvBuilder.self_extra_env_vars := [];
  CrossEnvBuilder.self_clear_build := clear_build;
  CrossEnvBuilder.self_clear_cross := clear_cross;
  CrossEnvBuilder.self_with_cross_pip := false;
  CrossEnvBuilder.self_with_build_pip := false;
  CrossEnvBuilder.self_cross_prefix := None
|}.

End Sample.

(** ** Observations on runs

    What the theorems say about a run: the state after more events,
    read-only computations, the rules a system root yields, the entries
    the clearing step keeps and the paths it removes. *)

(** The state after more events. *)
Definition log (st : state) (evs : list event) : state :=
  State (fs st) (trace st ++ evs).

(** The rules derived from a system root on a given file system:
    [LIBRARY_PATH] when the root has [usr/lib*] entries, then [CPATH]
    when it has a [usr/include] directory. *)
Definition sysroot_rules (R : Runtime) (f : filesystem) (sysroot : option string)
    : list rule :=
  match sysroot with
  | Some root =>
      if String.eqb root "" then []
      else
        let libs := glob_glob R f (OsPath.join3 root "usr" "lib*") in
        (match libs with
         | [] => []
         | _ => [("LIBRARY_PATH", ":=", PyStr.join ":" libs)]
         end ++
         if directory f (OsPath.join3 root "usr" "include")
         then [("CPATH", ":=", OsPath.join3 root "usr" "include")]
         else [])%list
  | None => []
  end.

(** A computation that leaves the file system as it found it and adds
    no mutating event to the trace. *)
Definition readonly {A} (m : M A) : Prop :=
  forall st,
    fs (m st).2 = fs st
    /\ exists evs, trace (m st).2 = (trace st ++ evs)%list
                   /\ Forall (fun e => mutates e = false) evs.

(** The paths a run of events may have changed: the files written and
    the directories they lie in. *)
Definition touched (evs : list event) (k : string) : bool :=
  existsb (fun e => match e with
                    | FsWrite _ c => String.eqb k c || String.eqb k (OsPath.dirname c)
                    | _ => false
                    end) evs.

(** An event that, if it changes anything, is the import system writing
    the bytecode cache of a [.py] file. *)
Definition caches_only (R : Runtime) (e : event) : Prop :=
  mutates e = true ->
  exists source,
    PyStr.endswith source ".py" = true
    /\ e = FsWrite "bytecode" (cache_from_source (cache_tag R) source).

(** A computation that changes the file system by bytecode caches at
    most: its mutating events are cache writes, and every path but the
    cache files written and their [__pycache__] directories is as it
    was. *)
Definition quiet (R : Runtime) {A} (m : M A) : Prop :=
  forall st,
    exists evs,
      trace (m st).2 = (trace st ++ evs)%list
      /\ Forall (caches_only R) evs
      /\ forall k, touched evs k = false -> fs (m st).2 !! k = fs st !! k.

(** A computation in whose every run the event [ev] occurs. *)
Definition passes {A} (ev : event) (m : M A) : Prop :=
  forall st, exists pre post, trace (m st).2 = (trace st ++ pre ++ ev :: post)%list.

(** The constructor arguments that ask for cross-pip without build-pip. *)
Definition cross_pip_only (host : string) : CrossEnvBuilder.args := {|
  CrossEnvBuilder.host_python := host;
  CrossEnvBuilder.extra_env_vars := [];
  CrossEnvBuilder.build_system_site_packages := false;
  CrossEnvBuilder.clear := None;
  CrossEnvBuilder.cross_prefix := None;
  CrossEnvBuilder.with_cross_pip := true;
  CrossEnvBuilder.with_build_pip := false;
  CrossEnvBuilder.host_sysroot := None
|}.

(** The entries [ensure_directories] keeps, and whether the clearing
    loop over [names] sweeps the path [k] away. *)
Definition kept (sub : string) : bool := bool_decide (sub ∈ ["cross"; "build"]).

Definition swept (env_dir : string) (names : list string) (k : string) : bool :=
  existsb (fun sub => negb (kept sub) && beneath (OsPath.join env_dir sub) k) names.

Definition clear_body (env_dir sub : string) : M unit :=
  if bool_decide (sub ∈ ["cross"; "build"]) then mret tt
  else remove_path (OsPath.join env_dir sub).

(** A directory path with its separating slash, as [os.path.join] and
    [entry_name] put it before an entry's name. *)
Definition with_slash (d : string) : string :=
  if PyStr.endswith d "/" then d else d +:+ "/".

(** The paths handed to [remove_path], in order. *)
Definition removals (evs : list event) : list string :=
  omap (fun e => match e with
                 | FsWrite op p => if String.eqb op "remove" then Some p else None
                 | _ => None
                 end) evs.

(** Text without a line feed, and a list of lines as iterating over a
    text file yields them: every line ends with its only line feed,
    but the last one may lack it if it is not empty. *)
Definition no_line_feed (s : string) : bool :=
  PyStr.all_chars (fun c => negb (Ascii.eqb c "010"%char)) s.

Fixpoint well_split (ls : list string) : Prop :=
  match ls with
  | [] => True
  | l :: rest =>
      (exists body,
         no_line_feed body = true
         /\ (l = body +:+ String "010" ""
             \/ (l = body /\ body <> "" /\ rest = [])))
      /\ well_split rest
  end.
(** * Properties *)

(** ** Sanity checks of the string and path layer *)

Example split1_none : PyStr.split1 "="%char "FOO" = ["FOO"].
Proof. reflexivity. Qed.

Example split1_first : PyStr.split1 "."%char "a.b.c" = ["a"; "b.c"].
Proof. reflexivity. Qed.

Example split_tag : PyStr.split "-"%char "linux-x86_64" = ["linux"; "x86_64"].
Proof. reflexivity. Qed.

Example splitext_opt : OsPath.splitext "/l/x.opt-1.pyc" = ("/l/x.opt-1", ".pyc").
Proof. reflexivity. Qed.

Example splitext_hidden : OsPath.splitext "/a/.bashrc" = ("/a/.bashrc", "").
Proof. reflexivity. Qed.

Example splitext_dir_dot : OsPath.splitext "/a.b/c" = ("/a.b/c", "").
Proof. reflexivity. Qed.

Example dirname_ex : OsPath.dirname "/opt/t/bin/python3" = "/opt/t/bin".
Proof. reflexivity. Qed.

Example dirname_root : OsPath.dirname "/a" = "/".
Proof. reflexivity. Qed.

Example join_ex : OsPath.join3 "/a" "lib" "py" = "/a/lib/py".
Proof. reflexivity. Qed.

Example title_ex : PyStr.title "freeBSD13x" = "Freebsd13X".
Proof. reflexivity. Qed.

Example empty_in : PyStr.contains "?+:" (PyStr.last_slice "") = true.
Proof. reflexivity. Qed.

Example parse_set : parse_env_vars ["FOO=bar"] = Ok [("FOO", "=", "bar")].
Proof. reflexivity. Qed.

Example parse_default : parse_env_vars ["FOO?=bar"] = Ok [("FOO", "?=", "bar")].
Proof. reflexivity. Qed.

Example parse_pathlist : parse_env_vars ["FOO:=a:b"] = Ok [("FOO", ":=", "a:b")].
Proof. reflexivity. Qed.

Example parse_digit : parse_env_vars ["1FOO=bar"] = Raise (invalid_variable_name "1FOO").
Proof. reflexivity. Qed.

Example parse_many :
  parse_env_vars [" A=1"; "B+=2"] = Ok [("A", "=", "1"); ("B", "+=", "2")].
Proof. reflexivity. Qed.

Example sample_construct_ok :
  (CrossEnvBuilder.__init__ Sample.runtime (Sample.default_args "/opt/target/bin/python3")
     (Sample.start (Sample.installed "3.11"))).1
  = Ok {| CrossEnvBuilder.self_host := {|
            CrossEnvBuilder.host_project_base := "/opt/target/bin";
            CrossEnvBuilder.host_makefile :=
              "/opt/target/lib/python3.11/config-3.11-aarch64-linux-gnu/Makefile";
            CrossEnvBuilder.host_home := "/opt/target";
            CrossEnvBuilder.host_sysconfig := {|
              CrossEnvBuilder.host_sysconfigdata := Some (Sample.target_vars "3.11");
              CrossEnvBuilder.host_sysconfigdata_file :=
                "/opt/target/lib/python3.11/_sysconfigdata__linux_aarch64-linux-gnu.py";
              CrossEnvBuilder.host_sysconfigdata_name :=
                "_sysconfigdata__linux_aarch64-linux-gnu" |};
            CrossEnvBuilder.host_cc := ["aarch64-linux-gnu-gcc"];
            CrossEnvBuilder.host_version := "3.11";
            CrossEnvBuilder.host_platform := "linux-aarch64" |};
          CrossEnvBuilder.self_host_sysroot := Some "/opt/sysroot";
          CrossEnvBuilder.self_build_system_site_packages := false;
          CrossEnvBuilder.self_extra_env_vars := [];
          CrossEnvBuilder.self_clear_build := false;
          CrossEnvBuilder.self_clear_cross := false;
          CrossEnvBuilder.self_with_cross_pip := false;
          CrossEnvBuilder.self_with_build_pip := false;
          CrossEnvBuilder.self_cross_prefix := None |}.
Proof. vm_compute. reflexivity. Qed.

Example sample_listdir :
  (os_listdir "/opt/target" (Sample.start (Sample.installed "3.11"))).1
  = Ok ["bin"; "lib"].
Proof. vm_compute. reflexivity. Qed.

(** ** [parse_env_vars] *)

Lemma cut_None_iff sep s :
  PyStr.cut sep s = None <-> ~ In sep (list_ascii_of_string s).
Proof.
  induction s as [|c s IH]; simpl.
  - split; [intros _ []|done].
  - destruct (Ascii.eqb_spec c sep) as [->|Hne].
    + split; [done|]. intros H. exfalso. apply H. by left.
    + destruct (PyStr.cut sep s) as [[a b]|].
      * split; [done|]. intros H. exfalso.
        destruct IH as [_ IH]. discriminate IH. intros Hin. apply H. by right.
      * split; [|done]. intros _ [Heq|Hin]; [done|].
        destruct IH as [IH _]. by apply IH.
Qed.

Lemma lstrip_chars sep s :
  In sep (list_ascii_of_string (PyStr.lstrip s)) -> In sep (list_ascii_of_string s).
Proof.
  induction s as [|c s IH]; simpl; [done|].
  destruct (PyStr.isspace c); simpl; auto.
Qed.

#[local] Arguments PyStr.contains : simpl never.
#[local] Arguments PyStr.isidentifier : simpl never.
#[local] Arguments PyStr.last_slice : simpl never.
#[local] Arguments PyStr.drop_last : simpl never.
#[local] Arguments PyStr.lstrip : simpl never.
#[local] Arguments PyStr.strip : simpl never.
#[local] Arguments String.eqb : simpl never.

Lemma split_without_equals spec :
  ~ In "="%char (list_ascii_of_string spec) ->
  parse_env_vars_split spec
  = Raise (Exc ValueError "not enough values to unpack (expected 2, got 1)" []).
Proof.
  intros H. apply cut_None_iff in H.
  unfold parse_env_vars_split, PyStr.split1. by rewrite H.
Qed.

(** The guarded statement returns or raises [ValueError]. *)
Lemma split_raises_ValueError spec e :
  parse_env_vars_split spec = Raise e -> exc_class_of e = ValueError.
Proof.
  unfold parse_env_vars_split, PyStr.split1.
  destruct (PyStr.cut "=" spec) as [[a b]|]; simpl; [done|].
  by intros [= <-].
Qed.

Lemma body_without_equals spec :
  ~ In "="%char (list_ascii_of_string spec) ->
  parse_env_vars_body spec
  = Raise (Exc ValueError "not enough values to unpack (expected 2, got 1)" []).
Proof.
  intros H. unfold parse_env_vars_body.
  rewrite split_without_equals; [done|].
  intros Hin. apply H. by apply lstrip_chars.
Qed.

(** Whatever one round raises, it is not the exception of the handler. *)
Lemma body_never_handler spec spec' :
  parse_env_vars_body spec <> Raise (invalid_variable_form spec').
Proof.
  unfold parse_env_vars_body, parse_env_vars_split, PyStr.split1.
  destruct (PyStr.cut "=" (PyStr.lstrip spec)) as [[name value]|]; simpl;
    [|done].
  destruct (PyStr.contains "?+:" (PyStr.last_slice name)); simpl.
  - unfold index_last. destruct (PyStr.last_char name); simpl; [|done].
    by destruct (PyStr.isidentifier (PyStr.drop_last name)).
  - by destruct (PyStr.isidentifier name).
Qed.

Lemma loop_never_handler env_vars parsed spec' :
  parse_env_vars_loop parsed env_vars <> Raise (invalid_variable_form spec').
Proof.
  revert parsed. induction env_vars as [|spec rest IH]; intros parsed; simpl.
  - done.
  - pose proof (body_never_handler spec spec') as Hb.
    destruct (parse_env_vars_body spec) as [r|e]; simpl; [apply IH|].
    congruence.
Qed.

Lemma loop_raises_on_member env_vars parsed spec :
  In spec env_vars ->
  ~ In "="%char (list_ascii_of_string spec) ->
  exists e, parse_env_vars_loop parsed env_vars = Raise e.
Proof.
  revert parsed. induction env_vars as [|x rest IH]; intros parsed Hin Hne.
  - destruct Hin.
  - simpl. destruct Hin as [->|Hin].
    + rewrite body_without_equals by done. simpl. eauto.
    + destruct (parse_env_vars_body x) as [r|e]; simpl; eauto.
Qed.

(** C10: a description without an equals sign makes [parse_env_vars]
    raise: alone it raises the [ValueError] of the failed unpacking, and
    any list that holds one raises some exception.  The handler that
    would report "Must be in the form NAME=VALUE" never runs: the guarded
    statement raises nothing but [ValueError], which [except IndexError]
    does not handle, and no call of [parse_env_vars] ends in the
    handler's exception. *)
Theorem parse_env_vars_without_equals :
  (forall spec,
     ~ In "="%char (list_ascii_of_string spec) ->
     parse_env_vars [spec]
     = Raise (Exc ValueError "not enough values to unpack (expected 2, got 1)" []))
  /\ (forall env_vars spec,
        In spec env_vars ->
        ~ In "="%char (list_ascii_of_string spec) ->
        exists e, parse_env_vars env_vars = Raise e)
  /\ (forall spec e,
        parse_env_vars_split spec = Raise e ->
        exc_class_of e = ValueError
        /\ bool_decide (exc_class_of e = IndexError) = false)
  /\ (forall env_vars spec,
        parse_env_vars env_vars <> Raise (invalid_variable_form spec)).
Proof.
  repeat split.
  - intros spec H. unfold parse_env_vars. simpl.
    by rewrite body_without_equals.
  - intros env_vars spec Hin H. by apply (loop_raises_on_member env_vars [] spec).
  - by apply split_raises_ValueError with spec.
  - apply split_raises_ValueError in H. by rewrite H.
  - intros env_vars spec. apply loop_never_handler.
Qed.

Lemma parse_env_vars_without_equals_witness :
  parse_env_vars ["FOO"]
  = Raise (Exc ValueError "not enough values to unpack (expected 2, got 1)" []).
Proof.
  apply (proj1 parse_env_vars_without_equals "FOO").
  simpl. intros H. intuition discriminate.
Defined.

(** A name that is present and is no identifier is reported as such. *)
Lemma parse_env_vars_body_invalid_name spec name value :
  PyStr.cut "="%char (PyStr.lstrip spec) = Some (name, value) ->
  name <> "" ->
  let name' := if PyStr.contains "?+:" (PyStr.last_slice name)
               then PyStr.drop_last name else name in
  PyStr.isidentifier name' = false ->
  parse_env_vars_body spec = Raise (invalid_variable_name name').
Proof.
  intros Hcut Hne name' Hid.
  unfold parse_env_vars_body, parse_env_vars_split, PyStr.split1.
  rewrite Hcut. simpl. subst name'.
  destruct (PyStr.contains "?+:" (PyStr.last_slice name)); simpl.
  - unfold index_last.
    destruct (PyStr.last_char name) eqn:Hl; simpl.
    + by rewrite Hid.
    + destruct name as [|c n]; [done|]. simpl in Hl.
      by destruct (PyStr.last_char n).
  - by rewrite Hid.
Qed.

(** C7: the three well-formed descriptions parse as the design says and
    ["1FOO=bar"] is rejected with the [ValueError] for names; but a
    description with nothing before its equals sign, whose name (the
    empty string) is no identifier either, ends in [IndexError] instead:
    the empty slice [name[-1:]] is found in ['?+:'] and [name[-1]] is
    then evaluated. *)
Theorem parse_env_vars_empty_name :
  parse_env_vars ["FOO=bar"] = Ok [("FOO", "=", "bar")]
  /\ parse_env_vars ["FOO?=bar"] = Ok [("FOO", "?=", "bar")]
  /\ parse_env_vars ["FOO:=a:b"] = Ok [("FOO", ":=", "a:b")]
  /\ parse_env_vars ["1FOO=bar"] = Raise (invalid_variable_name "1FOO")
  /\ PyStr.isidentifier "" = false
  /\ forall value,
       parse_env_vars [String "="%char value]
       = Raise (Exc IndexError "string index out of range" []).
Proof.
  split; [reflexivity|]. split; [reflexivity|]. split; [reflexivity|].
  split; [reflexivity|]. split; [reflexivity|].
  intros value. reflexivity.
Qed.

(** ** Running the effect monad *)

Lemma bind_run {A B} (m : M A) (f : A -> M B) st :
  (m ≫= f) st
  = match m st with
    | (Ok a, st') => f a st'
    | (Raise e, st') => (Raise e, st')
    end.
Proof. reflexivity. Qed.

Lemma run_exists p st :
  os_path_exists p st = (Ok (present (fs st) p), log st [FsRead "exists" p]).
Proof. reflexivity. Qed.

Lemma run_isfile p st :
  os_path_isfile p st = (Ok (regular (fs st) p), log st [FsRead "isfile" p]).
Proof. reflexivity. Qed.

Lemma run_isdir p st :
  os_path_isdir p st = (Ok (directory (fs st) p), log st [FsRead "isdir" p]).
Proof. reflexivity. Qed.

Lemma run_source_dir R d st :
  CrossEnvBuilder.is_python_source_dir R d st
  = (Ok (_is_python_source_dir R (fs st) d), log st [FsRead "source_dir" d]).
Proof. reflexivity. Qed.

Lemma run_glob R pat st :
  CrossEnvBuilder.glob R pat st
  = (Ok (glob_glob R (fs st) pat), log st [FsRead "glob" pat]).
Proof. reflexivity. Qed.

Lemma read_text_unreadable p st :
  readable (fs st) p = false ->
  exists e, read_text p st = (Raise e, log st [FsRead "open" p])
            /\ is_OSError (exc_class_of e) = true.
Proof.
  intros H. unfold read_text, readable in *.
  rewrite bind_run. unfold emit at 1. cbv beta iota.
  rewrite bind_run. unfold get_fs at 1. cbv beta iota.
  change (fs (State (fs st) (trace st ++ [FsRead "open" p]))) with (fs st).
  destruct (lookup_path (fs st) p) as [[| |]|]; try discriminate; eauto.
Qed.

(** ** Target discovery: the marker of a source tree *)

Lemma bind_raise {A B} (m : M A) (f : A -> M B) st e st' :
  m st = (Raise e, st') -> (m ≫= f) st = (Raise e, st').
Proof. intros H. by rewrite bind_run, H. Qed.

Lemma bind_ok {A B} (m : M A) (f : A -> M B) st a st' :
  m st = (Ok a, st') -> (m ≫= f) st = f a st'.
Proof. intros H. by rewrite bind_run, H. Qed.

Lemma fs_log st evs : fs (log st evs) = fs st.
Proof. reflexivity. Qed.

Ltac run := repeat (progress (repeat rewrite bind_run; cbv beta iota; cbn [negb])).



Lemma run_get_config_var name value st :
  get_config_var name value st = (Ok value, log st [FsRead "sysconfig" name]).
Proof. reflexivity. Qed.
(** ** Target discovery: the marker of a source tree *)

Lemma resolve_without_marker R host0 st :
  let host := abspath R host0 in
  let base := OsPath.dirname host in
  regular (fs st) host = true ->
  _is_python_source_dir R (fs st) base = true ->
  readable (fs st) (OsPath.join base "pybuilddir.txt") = false ->
  exists st',
    CrossEnvBuilder.find_host_python_resolve R host0 st
    = (Raise (Exc NameError "name %r is not defined" ["s"]), st').
Proof.
  intros host base Hreg Hsrc Hmark.
  assert (Hpres : present (fs st) host = true).
  { unfold present, regular in *. by destruct (lookup_path (fs st) host). }
  unfold CrossEnvBuilder.find_host_python_resolve. fold host.
  run. rewrite run_exists, Hpres. run.
  rewrite run_isfile, fs_log, Hreg. run.
  unfold mret at 1, M_ret at 1. run. fold base.
  rewrite run_source_dir, !fs_log, Hsrc. run.
  unfold try_exceptM at 1. run.
  destruct (read_text_unreadable (OsPath.join base "pybuilddir.txt")
              (log (log (log st [FsRead "exists" host]) [FsRead "isfile" host])
                   [FsRead "source_dir" base])) as (e & -> & He).
  { by rewrite !fs_log. }
  run. rewrite He. run. eauto.
Qed.

(** C5: for a target in a source tree (its executable is a regular file
    and its directory is a Python source directory) whose
    [pybuilddir.txt] is absent or cannot be read, construction does fail,
    but with [NameError]: the handler evaluates the unbound name [s]
    while it formats the message of the [IOError] it means to raise, so
    that [IOError] is never raised. *)
Theorem source_tree_without_marker R a st :
  let host := abspath R (CrossEnvBuilder.host_python a) in
  let base := OsPath.dirname host in
  regular (fs st) host = true ->
  _is_python_source_dir R (fs st) base = true ->
  readable (fs st) (OsPath.join base "pybuilddir.txt") = false ->
  (CrossEnvBuilder.__init__ R a st).1
  = Raise (Exc NameError "name %r is not defined" ["s"])
  /\ forall s, (CrossEnvBuilder.__init__ R a st).1
               <> Raise (CrossEnvBuilder.build_incomplete s).
Proof.
  intros host base Hreg Hsrc Hmark.
  destruct (resolve_without_marker R _ (log st [FsRead "sysconfig" "VERSION"])
              Hreg Hsrc Hmark) as [st' Hres].
  assert (Hrun : (CrossEnvBuilder.__init__ R a st).1
                 = Raise (Exc NameError "name %r is not defined" ["s"])).
  { unfold CrossEnvBuilder.__init__, CrossEnvBuilder.find_host_python.
    rewrite (bind_raise _ _ st (Exc NameError "name %r is not defined" ["s"]) st');
      [done|].
    rewrite bind_run, run_get_config_var. cbv beta iota.
    by apply bind_raise. }
  split; [done|]. intros s. rewrite Hrun. discriminate.
Qed.

Lemma source_tree_without_marker_witness :
  (CrossEnvBuilder.__init__ Sample.runtime (Sample.default_args "/src/cpython/python")
     (Sample.start Sample.unbuilt_tree)).1
  = Raise (Exc NameError "name %r is not defined" ["s"]).
Proof.
  apply (source_tree_without_marker Sample.runtime
           (Sample.default_args "/src/cpython/python")
           (Sample.start Sample.unbuilt_tree)); vm_compute; reflexivity.
Defined.

(** ** The compiler probe *)

Lemma run_compiler_failed R host_cc arg st status out :
  spawn R (host_cc ++ [arg]) = Exited status out ->
  status <> 0%Z ->
  CrossEnvBuilder.run_compiler R host_cc arg st
  = (Ok None, log st [Spawn (host_cc ++ [arg])]).
Proof.
  intros Hs Hne. unfold CrossEnvBuilder.run_compiler, try_exceptM,
    CrossEnvBuilder.check_output.
  run. unfold emit at 1. run. rewrite Hs.
  destruct status; [done| |]; reflexivity.
Qed.

Lemma run_compiler_not_found R host_cc arg st :
  spawn R (host_cc ++ [arg]) = NoSuchProgram ->
  CrossEnvBuilder.run_compiler R host_cc arg st
  = (Raise (Exc FileNotFoundError "[Errno 2] No such file or directory: %r"
              [List.hd "" (host_cc ++ [arg])]),
     log st [Spawn (host_cc ++ [arg])]).
Proof.
  intros Hs. unfold CrossEnvBuilder.run_compiler, try_exceptM,
    CrossEnvBuilder.check_output.
  run. unfold emit at 1. run. rewrite Hs. reflexivity.
Qed.

(** C6: once the target is discovered, a compiler that runs and exits
    with a non-zero status makes construction fail with the
    [RuntimeError] for an unusable toolchain; a compiler that cannot be
    found at all makes it fail too, but with the [FileNotFoundError] of
    the process layer, which [run_compiler] does not handle. *)
Theorem compiler_probe_failures R a st info st1 :
  CrossEnvBuilder.find_host_python R (CrossEnvBuilder.host_python a) st
  = (Ok info, st1) ->
  let cmdline := (CrossEnvBuilder.host_cc info ++ ["--version"])%list in
  (forall status out,
     spawn R cmdline = Exited status out -> status <> 0%Z ->
     (CrossEnvBuilder.__init__ R a st).1
     = Raise CrossEnvBuilder.toolchain_unavailable)
  /\ (spawn R cmdline = NoSuchProgram ->
      (CrossEnvBuilder.__init__ R a st).1
      = Raise (Exc FileNotFoundError "[Errno 2] No such file or directory: %r"
                 [List.hd "" cmdline])
      /\ (CrossEnvBuilder.__init__ R a st).1
         <> Raise CrossEnvBuilder.toolchain_unavailable).
Proof.
  intros Hfind cmdline. split.
  - intros status out Hs Hne.
    unfold CrossEnvBuilder.__init__. rewrite (bind_ok _ _ _ _ _ Hfind).
    unfold CrossEnvBuilder.find_compiler_info. run.
    by rewrite (run_compiler_failed R _ _ _ status out).
  - intros Hs.
    assert (Hrun : (CrossEnvBuilder.__init__ R a st).1
      = Raise (Exc FileNotFoundError "[Errno 2] No such file or directory: %r"
                 [List.hd "" cmdline])).
    { unfold CrossEnvBuilder.__init__. rewrite (bind_ok _ _ _ _ _ Hfind).
      unfold CrossEnvBuilder.find_compiler_info. run.
      by rewrite run_compiler_not_found. }
    split; [done|]. rewrite Hrun. discriminate.
Qed.

Lemma compiler_probe_failures_witness :
  (CrossEnvBuilder.__init__ Sample.runtime (Sample.default_args "/opt/target/bin/python3")
     (Sample.start Sample.foreign_compiler)).1
  = Raise (Exc FileNotFoundError "[Errno 2] No such file or directory: %r"
             ["arm-none-eabi-gcc"]).
Proof.
  let r := eval vm_compute in
    (CrossEnvBuilder.find_host_python Sample.runtime "/opt/target/bin/python3"
       (Sample.start Sample.foreign_compiler)) in
  match r with
  | (Ok ?info, ?st1) =>
      exact (proj1 (proj2 (compiler_probe_failures Sample.runtime
                             (Sample.default_args "/opt/target/bin/python3")
                             (Sample.start Sample.foreign_compiler) info st1
                             ltac:(vm_compute; reflexivity))
                      ltac:(vm_compute; reflexivity)))
  end.
Defined.

(** ** The descriptor file *)

Lemma split_nonempty sep s : PyStr.split sep s <> [].
Proof.
  destruct s as [|c s]; simpl; [done|].
  destruct (Ascii.eqb c sep); [done|].
  by destruct (PyStr.split sep s).
Qed.

Lemma split_two sep s :
  PyStr.cut sep s <> None ->
  exists a b rest, PyStr.split sep s = a :: b :: rest.
Proof.
  induction s as [|c s IH]; simpl; [done|].
  destruct (Ascii.eqb c sep).
  - intros _. pose proof (split_nonempty sep s).
    destruct (PyStr.split sep s) as [|b rest]; [done|]. eauto.
  - intros H. destruct IH as (a & b & rest & ->).
    + by destruct (PyStr.cut sep s).
    + eauto.
Qed.

(** For a platform tag with a dash, the uname fields are the first and
    the last character of the build machine's [sys.platform]: they do
    not depend on the tag. *)
Lemma uname_from_build_platform R self c d :
  PyStr.first_char (sys_platform R) = Some c ->
  PyStr.last_char (sys_platform R) = Some d ->
  PyStr.cut "-"%char
    (CrossEnvBuilder.host_platform (CrossEnvBuilder.self_host self)) <> None ->
  CrossEnvBuilder.create_configuration_uname R self
  = Ok [("sysname", PyStr.title (String c ""));
        ("nodename", "build");
        ("release", "");
        ("version", "");
        ("machine", String d "")].
Proof.
  intros Hc Hd Htag. unfold CrossEnvBuilder.create_configuration_uname.
  destruct (split_two _ _ Htag) as (x & y & rest & ->).
  unfold index_first, index_last. by rewrite Hc, Hd.
Qed.

(** C8: on a macOS build machine ([sys.platform] is ["darwin"]) and for
    a target whose Makefile reports the platform tag ["linux-aarch64"],
    the descriptor written at the environment root records sysname ["D"]
    and machine ["n"], the first and last character of ["darwin"]; the
    tag's system part ["linux"] and machine part ["aarch64"] appear
    nowhere in it. *)
Theorem descriptor_ignores_target_platform :
  exists self context st',
    (self ← CrossEnvBuilder.__init__ Sample.runtime
              (Sample.default_args "/opt/target/bin/python3");
     context ← CrossEnvBuilder.ensure_directories Sample.runtime self "/work/env";
     context ← CrossEnvBuilder.create_configuration Sample.runtime self context;
     mret (self, context)) (Sample.start (Sample.installed "3.11"))
    = (Ok (self, context), st')
    /\ CrossEnvBuilder.host_platform (CrossEnvBuilder.self_host self) = "linux-aarch64"
    /\ tag_system "linux-aarch64" = "linux"
    /\ tag_machine "linux-aarch64" = "aarch64"
    /\ CrossEnvBuilder.create_configuration_uname Sample.runtime self
       = Ok [("sysname", "D"); ("nodename", "build"); ("release", "");
             ("version", ""); ("machine", "n")]
    /\ context !! "crossenv_cfg" = Some "/work/env/crossenv.cfg"
    /\ fs st' !! "/work/env/crossenv.cfg"
       = Some (File ("[uname]" +:+ String "010" "" +:+
                     "sysname = D" +:+ String "010" "" +:+
                     "nodename = build" +:+ String "010" "" +:+
                     "release = " +:+ String "010" "" +:+
                     "version = " +:+ String "010" "" +:+
                     "machine = n" +:+ String "010" "" +:+
                     String "010" "") None).
Proof.
  eexists _, _, _. split; [vm_compute; reflexivity|].
  vm_compute. repeat split.
Qed.

(** ** Choosing among copies of the build configuration *)

(** C1: with a compiled copy in the library directory and the source
    copy in a per-platform subdirectory, both recording the same
    variables, discovery succeeds and takes the compiled copy as
    authoritative, although the source copy has the shorter secondary
    extension (["py"] against ["pyc"]): the sort key is the length of
    what follows the first dot of the whole path, here the dot of
    [python3.11], so the shorter path wins. *)
Theorem selection_by_path_not_extension :
  let paths := ["/opt/target/lib/python3.11"; "/opt/target/lib/python3.11/*"] in
  let st := Sample.start Sample.two_copies in
  (CrossEnvBuilder.find_sysconfig_data_glob Sample.runtime paths st).1
  = Ok [Sample.compiled_copy; Sample.source_copy]
  /\ Sample.two_copies !! Sample.compiled_copy
     = Some (File "" (Some (Sample.target_vars "3.11")))
  /\ Sample.two_copies !! Sample.source_copy
     = Some (File "" (Some (Sample.target_vars "3.11")))
  /\ secondary_extension Sample.source_copy = "py"
  /\ secondary_extension Sample.compiled_copy = "pyc"
  /\ CrossEnvBuilder.sort_key Sample.source_copy = Ok 45
  /\ CrossEnvBuilder.sort_key Sample.compiled_copy = Ok 21
  /\ (CrossEnvBuilder.find_sysconfig_data Sample.runtime paths st).1
     = Ok {| CrossEnvBuilder.host_sysconfigdata := Some (Sample.target_vars "3.11");
             CrossEnvBuilder.host_sysconfigdata_file := Sample.compiled_copy;
             CrossEnvBuilder.host_sysconfigdata_name := "_sysconfigdata" |}
  /\ CrossEnvBuilder.host_sysconfigdata_file
       <$> (CrossEnvBuilder.host_sysconfig
              <$> match (CrossEnvBuilder.__init__ Sample.runtime
                           (Sample.default_args "/opt/target/bin/python3") st).1 with
                  | Ok self => Some (CrossEnvBuilder.self_host self)
                  | Raise _ => None
                  end)
     = Some Sample.compiled_copy.
Proof.
  vm_compute. repeat split.
Qed.

(** ** The rule list of the launcher *)

Lemma sysroot_rules_names R f sysroot :
  Forall (fun r : rule => r.1.2 = ":=" /\ (r.1.1 = "LIBRARY_PATH" \/ r.1.1 = "CPATH"))
         (sysroot_rules R f sysroot).
Proof.
  unfold sysroot_rules. destruct sysroot as [root|]; [|constructor].
  destruct (String.eqb root ""); [constructor|].
  apply Forall_app. split.
  - destruct (glob_glob R f _); [constructor|].
    constructor; [|constructor]. split; [done|by left].
  - destruct (directory f _); [|constructor].
    constructor; [|constructor]. split; [done|by right].
Qed.

(** C4: whatever the user rules and the system root, the rule list the
    launcher is rendered with is the user's list, unchanged and in its
    order, followed by the rules derived from the system root; these are
    path-list rules for [LIBRARY_PATH] and [CPATH] only, and assembling
    the list changes nothing on the file system. *)
Theorem extra_envs_user_rules_first R self st :
  let user := CrossEnvBuilder.self_extra_env_vars self in
  let derived := sysroot_rules R (fs st) (CrossEnvBuilder.self_host_sysroot self) in
  let out := CrossEnvBuilder.make_cross_python_extra_envs R self st in
  out.1 = Ok ((user ++ derived)%list)
  /\ take (length user) ((user ++ derived)%list) = user
  /\ drop (length user) ((user ++ derived)%list) = derived
  /\ Forall (fun r : rule =>
               r.1.2 = ":=" /\ (r.1.1 = "LIBRARY_PATH" \/ r.1.1 = "CPATH")) derived
  /\ fs out.2 = fs st.
Proof.
  intros user derived out.
  assert (Hout : out.1 = Ok ((user ++ derived)%list) /\ fs out.2 = fs st).
  { subst out derived user.
    unfold CrossEnvBuilder.make_cross_python_extra_envs, sysroot_rules.
    destruct (CrossEnvBuilder.self_host_sysroot self) as [root|];
      [|by rewrite app_nil_r].
    destruct (String.eqb root ""); cbn [negb]; [by rewrite app_nil_r|].
    run. rewrite run_glob. run. rewrite run_isdir, !fs_log. run.
    destruct (glob_glob R (fs st) _) as [|lib libs];
      destruct (directory (fs st) _); cbn [negb app];
      rewrite ?app_nil_r, <- ?app_assoc; done. }
  destruct Hout as [H1 H2].
  split; [done|]. split; [by rewrite take_app_length|].
  split; [by rewrite drop_app_length|].
  split; [apply sysroot_rules_names|done].
Qed.

Example extra_envs_sample :
  let self := {|
    CrossEnvBuilder.self_host := {|
      CrossEnvBuilder.host_project_base := "/opt/target/bin";
      CrossEnvBuilder.host_makefile := "";
      CrossEnvBuilder.host_home := "/opt/target";
      CrossEnvBuilder.host_sysconfig := {|
        CrossEnvBuilder.host_sysconfigdata := None;
        CrossEnvBuilder.host_sysconfigdata_file := "";
        CrossEnvBuilder.host_sysconfigdata_name := "" |};
      CrossEnvBuilder.host_cc := ["aarch64-linux-gnu-gcc"];
      CrossEnvBuilder.host_version := "3.11";
      CrossEnvBuilder.host_platform := "linux-aarch64" |};
    CrossEnvBuilder.self_host_sysroot := Some "/opt/sysroot";
    CrossEnvBuilder.self_build_system_site_packages := false;
    CrossEnvBuilder.self_extra_env_vars := [("A", "=", "1"); ("B", ":=", "2")];
    CrossEnvBuilder.self_clear_build := false;
    CrossEnvBuilder.self_clear_cross := false;
    CrossEnvBuilder.self_with_cross_pip := false;
    CrossEnvBuilder.self_with_build_pip := false;
    CrossEnvBuilder.self_cross_prefix := None |} in
  (CrossEnvBuilder.make_cross_python_extra_envs Sample.runtime self
     (Sample.start (list_to_map [
        ("/opt/sysroot", Dir); ("/opt/sysroot/usr", Dir);
        ("/opt/sysroot/usr/lib", Dir); ("/opt/sysroot/usr/lib64", Dir);
        ("/opt/sysroot/usr/include", Dir)]))).1
  = Ok [("A", "=", "1"); ("B", ":=", "2");
        ("LIBRARY_PATH", ":=", "/opt/sysroot/usr/lib64:/opt/sysroot/usr/lib");
        ("CPATH", ":=", "/opt/sysroot/usr/include")].
Proof. vm_compute. reflexivity. Qed.

(** ** Construction only reads *)

Lemma ro_ret {A} (a : A) : readonly (mret a).
Proof. intros st. split; [done|]. exists []. by rewrite app_nil_r. Qed.

Lemma ro_raise {A} e : readonly (@raise A e).
Proof. intros st. split; [done|]. exists []. by rewrite app_nil_r. Qed.

Lemma ro_lift {A} (r : result A) : readonly (lift r).
Proof. intros st. split; [done|]. exists []. by rewrite app_nil_r. Qed.

Lemma ro_get_fs : readonly get_fs.
Proof. intros st. split; [done|]. exists []. by rewrite app_nil_r. Qed.

Lemma ro_emit e : mutates e = false -> readonly (emit e).
Proof. intros H st. split; [done|]. exists [e]. split; [done|]. by constructor. Qed.

Lemma ro_bind {A B} (m : M A) (f : A -> M B) :
  readonly m -> (forall a, readonly (f a)) -> readonly (m ≫= f).
Proof.
  intros Hm Hf st. rewrite bind_run.
  destruct (Hm st) as (Hfs & evs & Htr & Hev).
  destruct (m st) as [[a|e] st1]; simpl in *.
  - destruct (Hf a st1) as (Hfs' & evs' & Htr' & Hev').
    split; [congruence|]. exists (evs ++ evs')%list.
    rewrite Htr', Htr, app_assoc. split; [done|]. by apply Forall_app.
  - split; [done|]. by exists evs.
Qed.

Lemma ro_try {A} (body : M A) handles (handler : exc -> M A) :
  readonly body -> (forall e, readonly (handler e)) ->
  readonly (try_exceptM body handles handler).
Proof.
  intros Hm Hf st. unfold try_exceptM.
  destruct (Hm st) as (Hfs & evs & Htr & Hev).
  destruct (body st) as [[a|e] st1]; simpl in *.
  - split; [done|]. by exists evs.
  - destruct (handles (exc_class_of e)); simpl.
    + destruct (Hf e st1) as (Hfs' & evs' & Htr' & Hev').
      split; [congruence|]. exists (evs ++ evs')%list.
      rewrite Htr', Htr, app_assoc. split; [done|]. by apply Forall_app.
    + split; [done|]. by exists evs.
Qed.

Ltac ro :=
  repeat first
    [ solve [auto]
    | apply ro_ret | apply ro_raise | apply ro_lift | apply ro_get_fs
    | apply ro_emit; reflexivity
    | apply ro_try; [|intros ?]
    | apply ro_bind; [|intros ?]
    | match goal with
      | |- readonly (if ?b then _ else _) => destruct b
      | |- readonly (match ?x with _ => _ end) => destruct x
      | |- readonly (let (_, _) := ?x in _) => destruct x
      end ].

Lemma ro_exists p : readonly (os_path_exists p).
Proof. unfold os_path_exists. ro. Qed.

Lemma ro_isfile p : readonly (os_path_isfile p).
Proof. unfold os_path_isfile. ro. Qed.

Lemma ro_isdir p : readonly (os_path_isdir p).
Proof. unfold os_path_isdir. ro. Qed.

Lemma ro_read_text p : readonly (read_text p).
Proof. unfold read_text, no_such_file. ro. Qed.

Lemma ro_glob R pat : readonly (CrossEnvBuilder.glob R pat).
Proof. unfold CrossEnvBuilder.glob. ro. Qed.

Lemma ro_source_dir R d : readonly (CrossEnvBuilder.is_python_source_dir R d).
Proof. unfold CrossEnvBuilder.is_python_source_dir. ro. Qed.

Lemma ro_check_output R cmdline : readonly (CrossEnvBuilder.check_output R cmdline).
Proof. unfold CrossEnvBuilder.check_output, no_such_file. ro. Qed.

Lemma ro_installed_home base :
  readonly (CrossEnvBuilder.find_installed_host_home base).
Proof.
  unfold CrossEnvBuilder.find_installed_host_home.
  pose proof ro_exists. pose proof ro_read_text. ro.
Qed.

Lemma ro_sysconfig_glob R paths :
  readonly (CrossEnvBuilder.find_sysconfig_data_glob R paths).
Proof.
  induction paths as [|path rest IH]; simpl; [ro|].
  pose proof (ro_glob R). ro.
Qed.

Lemma ro_sysconfig_filter maybe acc :
  readonly (CrossEnvBuilder.find_sysconfig_data_filter maybe acc).
Proof.
  revert acc. induction maybe as [|filename rest IH]; intros acc; simpl; [ro|].
  apply ro_bind; [apply ro_isfile|]. intros isf.
  destruct (_ && _); apply IH.
Qed.

Lemma ro_run_compiler R host_cc arg :
  readonly (CrossEnvBuilder.run_compiler R host_cc arg).
Proof.
  unfold CrossEnvBuilder.run_compiler. pose proof (ro_check_output R). ro.
Qed.

Lemma ro_compiler_info R host_cc sysroot :
  readonly (CrossEnvBuilder.find_compiler_info R host_cc sysroot).
Proof.
  unfold CrossEnvBuilder.find_compiler_info.
  pose proof (ro_run_compiler R). ro.
Qed.


Lemma ro_get_config_var name value : readonly (get_config_var name value).
Proof. unfold get_config_var. ro. Qed.

(** ** Computations that write bytecode caches at most *)

Lemma touched_app a b k : touched (a ++ b) k = touched a k || touched b k.
Proof. apply existsb_app. Qed.

Lemma touched_reads evs k :
  Forall (fun e => mutates e = false) evs -> touched evs k = false.
Proof.
  induction 1 as [|e evs He _ IH]; [done|].
  cbn [touched existsb]. fold (touched evs k). rewrite IH.
  by destruct e.
Qed.

Lemma q_ro R {A} (m : M A) : readonly m -> quiet R m.
Proof.
  intros Hm st. destruct (Hm st) as (Hfs & evs & Htr & Hev).
  exists evs. split; [done|]. split.
  - eapply Forall_impl; [exact Hev|]. intros e He Hmut. congruence.
  - intros k _. by rewrite Hfs.
Qed.

Lemma q_bind R {A B} (m : M A) (f : A -> M B) :
  quiet R m -> (forall a, quiet R (f a)) -> quiet R (m ≫= f).
Proof.
  intros Hm Hf st. rewrite bind_run.
  destruct (Hm st) as (evs & Htr & Hev & Hfs).
  destruct (m st) as [[a|e] st1]; simpl in *.
  - destruct (Hf a st1) as (evs' & Htr' & Hev' & Hfs').
    exists (evs ++ evs')%list. rewrite Htr', Htr, app_assoc.
    split; [done|]. split; [by apply Forall_app|].
    intros k Hk. rewrite touched_app in Hk. apply orb_false_elim in Hk as [H1 H2].
    by rewrite Hfs', Hfs.
  - by exists evs.
Qed.

Lemma q_try R {A} (body : M A) handles (handler : exc -> M A) :
  quiet R body -> (forall e, quiet R (handler e)) ->
  quiet R (try_exceptM body handles handler).
Proof.
  intros Hm Hf st. unfold try_exceptM.
  destruct (Hm st) as (evs & Htr & Hev & Hfs).
  destruct (body st) as [[a|e] st1]; simpl in *.
  - by exists evs.
  - destruct (handles (exc_class_of e)); simpl; [|by exists evs].
    destruct (Hf e st1) as (evs' & Htr' & Hev' & Hfs').
    exists (evs ++ evs')%list. rewrite Htr', Htr, app_assoc.
    split; [done|]. split; [by apply Forall_app|].
    intros k Hk. rewrite touched_app in Hk. apply orb_false_elim in Hk as [H1 H2].
    by rewrite Hfs', Hfs.
Qed.

Ltac qt :=
  repeat first
    [ solve [auto]
    | apply q_ro; solve [auto | ro]
    | apply q_try; [|intros ?]
    | apply q_bind; [|intros ?]
    | match goal with
      | |- quiet _ (if ?b then _ else _) => destruct b
      | |- quiet _ (match ?x with _ => _ end) => destruct x
      | |- quiet _ (let (_, _) := ?x in _) => destruct x
      end ].

(** Caching bytecode for a [.py] file touches its cache file and the
    [__pycache__] directory only. *)
Lemma q_cache_bytecode R source vars :
  PyStr.endswith source ".py" = true ->
  quiet R (cache_bytecode R source (cache_from_source (cache_tag R) source) vars).
Proof.
  intros Hpy st. unfold cache_bytecode.
  set (cache := cache_from_source (cache_tag R) source).
  rewrite bind_run. change (get_fs st) with (Ok (fs st), st). cbv beta iota.
  destruct (bytecode_writable R (fs st) source && _ && _).
  - exists [FsWrite "bytecode" cache]. split; [reflexivity|]. split.
    + constructor; [|constructor]. intros _. by exists source.
    + intros k Hk. cbn [touched existsb] in Hk. rewrite orb_false_r in Hk.
      apply orb_false_elim in Hk as [H1 H2].
      apply String.eqb_neq in H1, H2.
      rewrite bind_run. unfold emit at 1. cbv beta iota.
      unfold put_fs. cbn [fs snd]. rewrite lookup_insert_ne by done.
      destruct (fs st !! OsPath.dirname cache); [done|].
      by rewrite lookup_insert_ne.
  - exists []. split; [by rewrite app_nil_r|]. split; [constructor|done].
Qed.

Lemma q_exec_module R p : quiet R (exec_module R p).
Proof.
  unfold exec_module, no_such_file.
  apply q_bind; [apply q_ro; ro|]. intros [].
  apply q_bind; [apply q_ro; ro|]. intros f.
  destruct (lookup_path f p) as [[|text vars|]|]; try solve [apply q_ro; ro].
  destruct (PyStr.endswith p ".py") eqn:Hpy; [|solve [apply q_ro; ro]].
  apply q_bind; [apply q_ro; ro|]. intros [].
  pose proof (q_cache_bytecode R p vars Hpy).
  destruct (if bytecode_valid R f p then _ else _) as [[|t cached|]|];
    solve [apply q_ro; ro | apply q_bind; [done|intros; apply q_ro; ro]].
Qed.

Lemma q_sysconfig_load R paths chosen :
  quiet R (CrossEnvBuilder.find_sysconfig_data_load R paths chosen).
Proof.
  revert chosen. induction paths as [|path rest IH]; intros chosen; simpl.
  - apply q_ro. ro.
  - apply q_bind; [apply q_exec_module|]. intros syscfg.
    destruct chosen as [c|]; [|apply IH].
    apply q_bind; [apply q_ro; ro|]. intros mine.
    apply q_bind; [apply q_ro; ro|]. intros theirs.
    destruct (bool_decide _); [apply q_ro; ro|apply IH].
Qed.

Lemma q_sysconfig_data R paths :
  quiet R (CrossEnvBuilder.find_sysconfig_data R paths).
Proof.
  unfold CrossEnvBuilder.find_sysconfig_data,
    CrossEnvBuilder.find_sysconfig_data_select.
  pose proof (ro_sysconfig_glob R). pose proof ro_sysconfig_filter.
  pose proof (q_sysconfig_load R). qt.
Qed.

(** What follows the existence test of the target in discovery. *)
Lemma q_resolve R host : quiet R (CrossEnvBuilder.find_host_python_resolve R host).
Proof.
  unfold CrossEnvBuilder.find_host_python_resolve. cbv zeta.
  pose proof ro_exists. pose proof ro_isfile. pose proof ro_read_text.
  pose proof (ro_source_dir R). pose proof (ro_glob R).
  pose proof ro_installed_home. pose proof ro_get_config_var.
  pose proof (q_sysconfig_data R).
  unfold unbound_name. qt.
Qed.

Lemma q_find_host_python R host : quiet R (CrossEnvBuilder.find_host_python R host).
Proof.
  unfold CrossEnvBuilder.find_host_python.
  pose proof ro_get_config_var. pose proof (q_resolve R). qt.
Qed.

Lemma q_init R a : quiet R (CrossEnvBuilder.__init__ R a).
Proof.
  unfold CrossEnvBuilder.__init__.
  pose proof (q_find_host_python R). pose proof (ro_compiler_info R). qt.
Qed.

(** ** Events that every run passes *)

Lemma passes_bind R {A B} ev (m : M A) (f : A -> M B) :
  passes ev m -> (forall a, quiet R (f a)) -> passes ev (m ≫= f).
Proof.
  intros Hm Hf st. rewrite bind_run.
  destruct (Hm st) as (pre & post & Htr).
  destruct (m st) as [[a|e] st1]; simpl in *; [|by exists pre, post].
  destruct (Hf a st1) as (evs & Htr' & _).
  exists pre, (post ++ evs)%list. rewrite Htr', Htr.
  by rewrite <- !app_assoc.
Qed.

Lemma passes_exists R {A} p (k : bool -> M A) :
  (forall b, quiet R (k b)) ->
  passes (FsRead "exists" p) (os_path_exists p ≫= k).
Proof.
  intros Hk st. rewrite bind_run, run_exists. cbv beta iota.
  destruct (Hk (present (fs st) p) (log st [FsRead "exists" p]))
    as (evs & Htr & _).
  exists [], evs. rewrite Htr. simpl. by rewrite <- app_assoc.
Qed.

Lemma passes_config {A} ev name value (f : string -> M A) :
  passes ev (f value) -> passes ev (get_config_var name value ≫= f).
Proof.
  intros Hf st. rewrite bind_run, run_get_config_var. cbv beta iota.
  destruct (Hf (log st [FsRead "sysconfig" name])) as (pre & post & Htr).
  exists (FsRead "sysconfig" name :: pre), post. rewrite Htr. simpl.
  by rewrite <- app_assoc.
Qed.

(** Discovery always tests whether the target exists. *)
Lemma resolve_passes R host :
  passes (FsRead "exists" (abspath R host))
    (CrossEnvBuilder.find_host_python_resolve R host).
Proof.
  unfold CrossEnvBuilder.find_host_python_resolve. cbv zeta.
  apply (passes_exists R). intros b.
  pose proof ro_exists. pose proof ro_isfile. pose proof ro_read_text.
  pose proof (ro_source_dir R). pose proof (ro_glob R).
  pose proof ro_installed_home. pose proof ro_get_config_var.
  pose proof (q_sysconfig_data R).
  unfold unbound_name. qt.
Qed.

Lemma find_host_python_passes R host :
  passes (FsRead "exists" (abspath R host))
    (CrossEnvBuilder.find_host_python R host).
Proof.
  unfold CrossEnvBuilder.find_host_python.
  apply passes_config. apply (passes_bind R); [apply resolve_passes|].
  intros info. qt.
Qed.

Lemma init_passes R a :
  passes (FsRead "exists" (abspath R (CrossEnvBuilder.host_python a)))
    (CrossEnvBuilder.__init__ R a).
Proof.
  unfold CrossEnvBuilder.__init__.
  apply (passes_bind R); [apply find_host_python_passes|]. intros info.
  pose proof (ro_compiler_info R). qt.
Qed.

(** ** The version check *)

(** Two runs of a 3.11 build interpreter on an installed target that
    records version 3.9.  Without its Makefile, construction fails for
    the missing Makefile, before the versions are compared.  With it,
    construction fails for the versions, but by then importing the
    target's build configuration has created a [__pycache__] directory
    in the target's library directory and written the bytecode cache
    into it. *)
Lemma version_check_comes_last :
  let args := Sample.default_args "/opt/target/bin/python3" in
  let config :=
    "/opt/target/lib/python3.11/_sysconfigdata__linux_aarch64-linux-gnu.py" in
  let pycache := "/opt/target/lib/python3.11/__pycache__" in
  let st := Sample.start (Sample.without_makefile "3.9") in
  let st' := Sample.start (Sample.installed "3.9") in
  let out' := CrossEnvBuilder.__init__ Sample.runtime args st' in
  (exec_module Sample.runtime config st).1 = Ok (Some (Sample.target_vars "3.9"))
  /\ Sample.target_vars "3.9" !! "VERSION" = Some "3.9"
  /\ config_VERSION Sample.runtime = "3.11"
  /\ (CrossEnvBuilder.__init__ Sample.runtime args st).1
     = Raise CrossEnvBuilder.cannot_find_makefile
  /\ (CrossEnvBuilder.__init__ Sample.runtime args st).1
     <> Raise (CrossEnvBuilder.version_mismatch "3.9" "3.11")
  /\ out'.1 = Raise (CrossEnvBuilder.version_mismatch "3.9" "3.11")
  /\ fs st' !! pycache = None
  /\ fs out'.2 !! pycache = Some Dir
  /\ fs out'.2
       !! (pycache +:+ "/_sysconfigdata__linux_aarch64-linux-gnu.cpython-311.pyc")
     = Some (File "" (Some (Sample.target_vars "3.9"))).
Proof.
  vm_compute. repeat split; discriminate.
Qed.
(** C2, amended: discovery, once the running version is known, either
    fails, and then construction fails with the same exception, or
    succeeds, and then a recorded version that differs from the running
    interpreter's makes construction fail with the [ValueError] for a
    version mismatch.  Whatever the outcome, the only changes
    construction makes to the file system are bytecode caches that the
    import system writes for [.py] files: every mutating event is such
    a write, and every path other than the cache files written and the
    [__pycache__] directories they lie in is as it was. *)
Theorem version_mismatch_after_discovery R a st :
  let out := CrossEnvBuilder.__init__ R a st in
  let found :=
    CrossEnvBuilder.find_host_python_resolve R (CrossEnvBuilder.host_python a)
      (log st [FsRead "sysconfig" "VERSION"]) in
  (forall info st1,
     found = (Ok info, st1) ->
     CrossEnvBuilder.host_version info <> config_VERSION R ->
     out = (Raise (CrossEnvBuilder.version_mismatch
                     (CrossEnvBuilder.host_version info) (config_VERSION R)),
            st1))
  /\ (forall e st1, found = (Raise e, st1) -> out = (Raise e, st1))
  /\ exists evs,
       trace out.2 = (trace st ++ evs)%list
       /\ Forall (caches_only R) evs
       /\ forall k, touched evs k = false -> fs out.2 !! k = fs st !! k.
Proof.
  intros out found.
  split; [|split; [|apply q_init]].
  - intros info st1 Hfound Hne. subst out found.
    unfold CrossEnvBuilder.__init__, CrossEnvBuilder.find_host_python.
    run. rewrite run_get_config_var. run. rewrite Hfound. run.
    apply String.eqb_neq in Hne. by rewrite Hne.
  - intros e st1 Hfound. subst out found.
    unfold CrossEnvBuilder.__init__, CrossEnvBuilder.find_host_python.
    run. rewrite run_get_config_var. run. by rewrite Hfound.
Qed.

Lemma version_mismatch_after_discovery_witness :
  (CrossEnvBuilder.__init__ Sample.runtime
     (Sample.default_args "/opt/target/bin/python3")
     (Sample.start (Sample.installed "3.9"))).1
  = Raise (CrossEnvBuilder.version_mismatch "3.9" "3.11").
Proof.
  pose proof (version_mismatch_after_discovery Sample.runtime
                (Sample.default_args "/opt/target/bin/python3")
                (Sample.start (Sample.installed "3.9"))) as H.
  cbv zeta in H. destruct H as [H _].
  let r := eval vm_compute in
    (CrossEnvBuilder.find_host_python_resolve Sample.runtime
       (CrossEnvBuilder.host_python (Sample.default_args "/opt/target/bin/python3"))
       (log (Sample.start (Sample.installed "3.9")) [FsRead "sysconfig" "VERSION"])) in
  match r with
  | (Ok ?info, ?st1) =>
      exact (f_equal fst (H info st1 ltac:(vm_compute; reflexivity)
                            ltac:(vm_compute; discriminate)))
  end.
Defined.

(** ** The pip options *)

(** With cross-pip and without build-pip: for a good target the
    [ValueError] for the options is raised only after the file system
    was read, and written where bytecode is cached, and the compiler
    run; for a missing target construction fails for the target
    instead. *)
Lemma pip_check_comes_after_discovery :
  let out := CrossEnvBuilder.__init__ Sample.runtime
               (cross_pip_only "/opt/target/bin/python3")
               (Sample.start (Sample.installed "3.11")) in
  let missing := CrossEnvBuilder.__init__ Sample.runtime
                   (cross_pip_only "/opt/nowhere/python3")
                   (Sample.start (Sample.installed "3.11")) in
  out.1 = Raise CrossEnvBuilder.cross_pip_without_build_pip
  /\ List.filter touches_fs (trace out.2)
     = [FsRead "sysconfig" "VERSION";
        FsRead "exists" "/opt/target/bin/python3";
        FsRead "isfile" "/opt/target/bin/python3";
        FsRead "source_dir" "/opt/target/bin";
        FsRead "exists" "/opt/target/pyvenv.cfg";
        FsRead "sysconfig" "py_version_short";
        FsRead "glob" "/opt/target/lib/python3.11/*/Makefile";
        FsRead "glob" "/opt/target/lib/python3.11/_sysconfigdata*.py*";
        FsRead "glob" "/opt/target/lib/python3.11/*/_sysconfigdata*.py*";
        FsRead "isfile"
          "/opt/target/lib/python3.11/_sysconfigdata__linux_aarch64-linux-gnu.py";
        FsRead "import"
          "/opt/target/lib/python3.11/_sysconfigdata__linux_aarch64-linux-gnu.py";
        FsRead "bytecode"
          "/opt/target/lib/python3.11/__pycache__/_sysconfigdata__linux_aarch64-linux-gnu.cpython-311.pyc";
        FsWrite "bytecode"
          "/opt/target/lib/python3.11/__pycache__/_sysconfigdata__linux_aarch64-linux-gnu.cpython-311.pyc";
        FsRead "exists"
          "/opt/target/lib/python3.11/config-3.11-aarch64-linux-gnu/Makefile";
        FsRead "open"
          "/opt/target/lib/python3.11/config-3.11-aarch64-linux-gnu/Makefile"]
  /\ List.filter (fun e => negb (touches_fs e)) (trace out.2)
     = [Spawn ["aarch64-linux-gnu-gcc"; "--version"];
        Spawn ["aarch64-linux-gnu-gcc"; "-print-sysroot"]]
  /\ missing.1 = Raise (CrossEnvBuilder.host_does_not_exist "/opt/nowhere/python3")
  /\ missing.1 <> Raise CrossEnvBuilder.cross_pip_without_build_pip.
Proof.
  vm_compute. repeat split; discriminate.
Qed.

(** C3, amended: with cross-pip and without build-pip, construction
    fails, but not before the file system is accessed.  When target
    discovery fails, construction fails with discovery's exception;
    when discovery succeeds and the compiler probe fails, with the
    probe's; when both succeed, with the [ValueError] for the options.
    In every case the test whether the target exists is among the
    events of the run. *)
Theorem cross_pip_needs_build_pip R a st :
  CrossEnvBuilder.with_cross_pip a = true ->
  CrossEnvBuilder.with_build_pip a = false ->
  let out := CrossEnvBuilder.__init__ R a st in
  let found := CrossEnvBuilder.find_host_python R (CrossEnvBuilder.host_python a) st in
  let probe info :=
    CrossEnvBuilder.find_compiler_info R (CrossEnvBuilder.host_cc info)
      (CrossEnvBuilder.host_sysroot a) in
  (forall e st1, found = (Raise e, st1) -> out = (Raise e, st1))
  /\ (forall info st1 e st2,
        found = (Ok info, st1) -> probe info st1 = (Raise e, st2) ->
        out = (Raise e, st2))
  /\ (forall info st1 sysroot st2,
        found = (Ok info, st1) -> probe info st1 = (Ok sysroot, st2) ->
        out = (Raise CrossEnvBuilder.cross_pip_without_build_pip, st2))
  /\ exists pre post,
       trace out.2
       = (trace st ++ pre
          ++ FsRead "exists" (abspath R (CrossEnvBuilder.host_python a)) :: post)%list.
Proof.
  intros Hcross Hbuild out found probe.
  split; [|split; [|split; [|apply init_passes]]].
  - intros e st1 Hfound. subst out. unfold CrossEnvBuilder.__init__.
    by rewrite (bind_raise _ _ _ _ _ Hfound).
  - intros info st1 e st2 Hfound Hprobe. subst out.
    unfold CrossEnvBuilder.__init__.
    rewrite (bind_ok _ _ _ _ _ Hfound). by rewrite (bind_raise _ _ _ _ _ Hprobe).
  - intros info st1 sysroot st2 Hfound Hprobe. subst out.
    unfold CrossEnvBuilder.__init__.
    rewrite (bind_ok _ _ _ _ _ Hfound), (bind_ok _ _ _ _ _ Hprobe).
    by rewrite Hcross, Hbuild.
Qed.

Lemma cross_pip_needs_build_pip_witness :
  (CrossEnvBuilder.__init__ Sample.runtime
     (cross_pip_only "/opt/target/bin/python3")
     (Sample.start (Sample.installed "3.11"))).1
  = Raise CrossEnvBuilder.cross_pip_without_build_pip.
Proof.
  pose proof (cross_pip_needs_build_pip Sample.runtime
                (cross_pip_only "/opt/target/bin/python3")
                (Sample.start (Sample.installed "3.11"))) as H.
  specialize (H eq_refl eq_refl). cbv zeta in H. destruct H as (_ & _ & H & _).
  let r := eval vm_compute in
    (CrossEnvBuilder.find_host_python Sample.runtime "/opt/target/bin/python3"
       (Sample.start (Sample.installed "3.11"))) in
  match r with
  | (Ok ?info, ?st1) =>
      let r2 := eval vm_compute in
        (CrossEnvBuilder.find_compiler_info Sample.runtime
           (CrossEnvBuilder.host_cc info) None st1) in
      match r2 with
      | (Ok ?sysroot, ?st2) =>
          exact (f_equal fst (H info st1 sysroot st2
                                ltac:(vm_compute; reflexivity)
                                ltac:(vm_compute; reflexivity)))
      end
  end.
Defined.
(** ** Clearing the environment directory *)

Lemma append_assoc a b c : (a +:+ b) +:+ c = a +:+ (b +:+ c).
Proof.
  induction a as [|x a IH]; [done|].
  change (String x ((a +:+ b) +:+ c) = String x (a +:+ (b +:+ c))).
  by rewrite IH.
Qed.

Lemma append_cancel p a b : p +:+ a = p +:+ b -> a = b.
Proof.
  induction p as [|x p IH]; [done|].
  change (String x (p +:+ a) = String x (p +:+ b) -> a = b).
  intros [= H]. auto.
Qed.

Lemma strip_prefix_Some p k r :
  PyStr.strip_prefix p k = Some r <-> k = p +:+ r.
Proof.
  revert k. induction p as [|c p IH]; intros k; simpl.
  - split; [by intros [= ->]|by intros ->].
  - destruct k as [|d k]; [split; discriminate|].
    destruct (Ascii.eqb_spec c d) as [->|Hne].
    + rewrite IH. split; [by intros ->|by intros [= ->]].
    + split; [discriminate|]. intros [= ? ?]. congruence.
Qed.

Lemma startswith_iff s p :
  PyStr.startswith s p = true <-> exists r, s = p +:+ r.
Proof.
  unfold PyStr.startswith.
  destruct (PyStr.strip_prefix p s) as [r|] eqn:E.
  - apply strip_prefix_Some in E. split; eauto.
  - split; [discriminate|]. intros [r Hr].
    apply strip_prefix_Some in Hr. congruence.
Qed.

Lemma beneath_iff p k :
  beneath p k = true <-> k = p \/ exists r, k = p +:+ "/" +:+ r.
Proof.
  unfold beneath. rewrite orb_true_iff, String.eqb_eq, startswith_iff.
  split; (intros [H|[r H]]; [by left|right; exists r]).
  - by rewrite H, append_assoc.
  - by rewrite H, append_assoc.
Qed.

Lemma lookup_remove p (f : filesystem) k :
  filter (fun kv : string * node => beneath p kv.1 = false) f !! k
  = if beneath p k then None else f !! k.
Proof.
  apply option_eq. intros x. rewrite map_lookup_filter_Some. simpl.
  destruct (beneath p k); naive_solver.
Qed.

Lemma clear_body_kept env_dir sub st :
  kept sub = true -> clear_body env_dir sub st = (Ok tt, st).
Proof. unfold clear_body, kept. by intros ->. Qed.

Lemma clear_body_swept env_dir sub st :
  kept sub = false ->
  clear_body env_dir sub st
  = (Ok tt,
     State (filter (fun kv : string * node =>
                      beneath (OsPath.join env_dir sub) kv.1 = false) (fs st))
           (trace st ++ [FsWrite "remove" (OsPath.join env_dir sub)])).
Proof. unfold clear_body, kept. by intros ->. Qed.

Lemma clear_loop env_dir names st :
  (for_each names (clear_body env_dir) st).1 = Ok tt
  /\ (forall k, fs (for_each names (clear_body env_dir) st).2 !! k
                = if swept env_dir names k then None else fs st !! k)
  /\ trace (for_each names (clear_body env_dir) st).2
     = (trace st ++
        ((fun sub => FsWrite "remove" (OsPath.join env_dir sub))
           <$> List.filter (fun sub => negb (kept sub)) names))%list.
Proof.
  revert st. induction names as [|sub rest IH]; intros st.
  - simpl. split; [done|]. split; [done|]. by rewrite app_nil_r.
  - cbn [for_each swept existsb List.filter]. fold (swept env_dir rest).
    rewrite bind_run. destruct (kept sub) eqn:Hk; cbn [negb andb orb].
    + rewrite clear_body_kept by done. apply IH.
    + rewrite clear_body_swept by done.
      match goal with
      | |- context [for_each rest _ ?s] => destruct (IH s) as (H1 & H2 & H3)
      end.
      split; [done|]. split.
      * intros k. rewrite H2. cbn [fs]. rewrite lookup_remove.
        unfold swept.
        destruct (beneath (OsPath.join env_dir sub) k); cbn [orb];
          by destruct (existsb _ rest).
      * rewrite H3. cbn [trace fmap list_fmap]. by rewrite <- app_assoc.
Qed.

Lemma append_nil_r a : a +:+ "" = a.
Proof.
  induction a as [|x a IH]; [done|].
  change (String x (a +:+ "") = String x a). by rewrite IH.
Qed.

Lemma cut_None_cons sep c s :
  PyStr.cut sep (String c s) = None -> c <> sep /\ PyStr.cut sep s = None.
Proof.
  simpl. destruct (Ascii.eqb_spec c sep); [discriminate|].
  by destruct (PyStr.cut sep s) as [[? ?]|].
Qed.

Lemma no_slash_start name :
  PyStr.cut "/"%char name = None -> PyStr.startswith name "/" = false.
Proof.
  destruct name as [|c n]; [reflexivity|]. intros H.
  apply cut_None_cons in H as [Hc _].
  unfold PyStr.startswith. cbn [PyStr.strip_prefix].
  destruct (Ascii.eqb_spec "/"%char c); [congruence|reflexivity].
Qed.

Lemma join_entry d sub :
  d <> "" -> PyStr.cut "/"%char sub = None ->
  OsPath.join d sub = with_slash d +:+ sub.
Proof.
  intros Hd Hsub. unfold OsPath.join, with_slash.
  rewrite no_slash_start by done.
  apply String.eqb_neq in Hd. rewrite Hd. cbn [orb].
  destruct (PyStr.endswith d "/"); [done|]. by rewrite append_assoc.
Qed.

Lemma entry_name_spec d k name :
  d <> "" -> entry_name d k = Some name ->
  k = OsPath.join d name /\ name <> "" /\ PyStr.cut "/"%char name = None.
Proof.
  intros Hd. unfold entry_name. fold (with_slash d).
  destruct (PyStr.strip_prefix (with_slash d) k) as [r|] eqn:E; [|done].
  apply strip_prefix_Some in E.
  destruct (String.eqb_spec r ""); [done|].
  destruct (PyStr.cut "/"%char r) as [[? ?]|] eqn:Hcut; [done|].
  intros [= <-]. by rewrite join_entry.
Qed.

Lemma no_slash_unique a b X Y :
  PyStr.cut "/"%char a = None -> PyStr.cut "/"%char b = None ->
  (X = "" \/ exists r, X = "/" +:+ r) ->
  (Y = "" \/ exists r, Y = "/" +:+ r) ->
  a +:+ X = b +:+ Y -> a = b.
Proof.
  revert b. induction a as [|c a IH]; intros b Ha Hb HX HY.
  - destruct b as [|d b]; [done|].
    apply cut_None_cons in Hb as [Hd _].
    change ("" +:+ X) with X. change (String d b +:+ Y) with (String d (b +:+ Y)).
    intros ->. destruct HX as [?|[r Hr]]; [done|].
    change ("/" +:+ r) with (String "/" r) in Hr. congruence.
  - apply cut_None_cons in Ha as [Hc Ha].
    destruct b as [|d b].
    + change ("" +:+ Y) with Y. change (String c a +:+ X) with (String c (a +:+ X)).
      intros <-. destruct HY as [?|[r Hr]]; [done|].
      change ("/" +:+ r) with (String "/" r) in Hr. congruence.
    + apply cut_None_cons in Hb as [Hd Hb].
      change (String c a +:+ X) with (String c (a +:+ X)).
      change (String d b +:+ Y) with (String d (b +:+ Y)).
      intros [= -> H]. f_equal. by apply IH.
Qed.

(** Paths beneath two different entries of one directory are apart. *)
Lemma beneath_apart d a b k :
  d <> "" ->
  PyStr.cut "/"%char a = None -> PyStr.cut "/"%char b = None -> a <> b ->
  beneath (OsPath.join d a) k = true -> beneath (OsPath.join d b) k = false.
Proof.
  intros Hd Ha Hb Hne H1.
  destruct (beneath (OsPath.join d b) k) eqn:H2; [|done]. exfalso.
  rewrite !join_entry in * by done.
  apply beneath_iff in H1, H2. apply Hne.
  assert (HX : exists X, k = with_slash d +:+ a +:+ X
                         /\ (X = "" \/ exists r, X = "/" +:+ r)).
  { destruct H1 as [->|[r ->]].
    - exists "". split; [|by left].
      by rewrite append_nil_r.
    - exists ("/" +:+ r). split; [|right; eauto].
      by rewrite !append_assoc. }
  assert (HY : exists Y, k = with_slash d +:+ b +:+ Y
                         /\ (Y = "" \/ exists r, Y = "/" +:+ r)).
  { destruct H2 as [->|[r ->]].
    - exists "". split; [|by left].
      by rewrite append_nil_r.
    - exists ("/" +:+ r). split; [|right; eauto].
      by rewrite !append_assoc. }
  destruct HX as (X & HkX & HX). destruct HY as (Y & HkY & HY).
  rewrite HkX in HkY. apply append_cancel in HkY.
  by apply (no_slash_unique a b X Y).
Qed.

Lemma listdir_names (f : filesystem) d name :
  name ∈ omap (entry_name d) (map_to_list f).*1
  <-> exists k, is_Some (f !! k) /\ entry_name d k = Some name.
Proof.
  rewrite list_elem_of_omap. split.
  - intros (k & Hk & Hn). exists k. split; [|done].
    apply list_elem_of_fmap in Hk as ([k' x] & -> & Hkx).
    apply elem_of_map_to_list in Hkx. eauto.
  - intros (k & [x Hx] & Hn). exists k. split; [|done].
    apply list_elem_of_fmap. exists (k, x). split; [done|].
    by apply elem_of_map_to_list.
Qed.

Lemma swept_true env_dir names k :
  swept env_dir names k = true
  <-> exists sub, sub ∈ names /\ kept sub = false
                  /\ beneath (OsPath.join env_dir sub) k = true.
Proof.
  unfold swept. rewrite existsb_exists. split.
  - intros (sub & Hin & H). apply andb_true_iff in H as [H1 H2].
    exists sub. rewrite list_elem_of_In. apply negb_true_iff in H1. eauto.
  - intros (sub & Hin & H1 & H2). exists sub.
    rewrite <- list_elem_of_In. split; [done|]. by rewrite H1, H2.
Qed.

Lemma run_listdir d st :
  lookup_path (fs st) d = Some Dir ->
  os_listdir d st
  = (Ok (omap (entry_name d) (map_to_list (fs st)).*1),
     log st [FsRead "listdir" d]).
Proof.
  intros H. unfold os_listdir. run. unfold emit at 1. run.
  unfold get_fs at 1. run. cbn [fs]. by rewrite H.
Qed.

Lemma clear_run self env_dir st :
  lookup_path (fs st) env_dir = Some Dir ->
  CrossEnvBuilder.ensure_directories_clear self env_dir st
  = if CrossEnvBuilder.self_clear_cross self || CrossEnvBuilder.self_clear_build self
    then for_each (omap (entry_name env_dir) (map_to_list (fs st)).*1)
           (clear_body env_dir)
           (log (log st [FsRead "exists" env_dir]) [FsRead "listdir" env_dir])
    else (Ok tt, log st [FsRead "exists" env_dir]).
Proof.
  intros H. unfold CrossEnvBuilder.ensure_directories_clear.
  rewrite bind_run, run_exists. cbv beta iota.
  unfold present. rewrite H. cbn [andb].
  destruct (_ || _); [|done].
  rewrite bind_run, run_listdir by done. done.
Qed.


Lemma lookup_swept env_dir names (f : filesystem) k :
  filter (fun kv : string * node => swept env_dir names kv.1 = false) f !! k
  = if swept env_dir names k then None else f !! k.
Proof.
  apply option_eq. intros x. rewrite map_lookup_filter_Some. simpl.
  destruct (swept env_dir names k); split; try done; by intros [? ?].
Qed.

Lemma run_super R env_dir st :
  CrossEnvBuilder.super_ensure_directories R env_dir st
  = match venv_ensure_directories R env_dir (fs st) with
    | Ok (context, f') =>
        (Ok context, State f' (trace st ++ [FsWrite "venv" env_dir]))
    | Raise e => (Raise e, log st [FsWrite "venv" env_dir])
    end.
Proof.
  unfold CrossEnvBuilder.super_ensure_directories. run. unfold emit at 1. run.
  unfold get_fs at 1. run. unfold lift. run. cbn [fs].
  by destruct (venv_ensure_directories R env_dir (fs st)) as [[c f']|e].
Qed.

Lemma run_mkdir p st :
  mkdir_if_needed p st
  = (Ok tt,
     State (match fs st !! p with Some _ => fs st | None => <[p := Dir]> (fs st) end)
           (trace st ++ [FsWrite "mkdir" p])).
Proof.
  unfold mkdir_if_needed. run. unfold emit at 1. run. unfold get_fs at 1. run.
  cbn [fs]. by destruct (fs st !! p).
Qed.

(** C9: for an existing directory [env_dir], [ensure_directories] runs
    as follows.  It tests that the directory exists and, when clearing
    is asked for either sub-environment, lists it and calls
    [remove_path] for every entry other than [cross] and [build], in
    the order of the listing; when clearing is asked for neither, it
    removes nothing.  The base venv service then works on the file
    system [cleared] that this leaves, and the [lib] directory is made
    sure of in what the service returns.  When clearing, [cleared] is
    the file system before without every entry of the directory other
    than [cross] and [build] and all beneath them: those are gone,
    [cross], [build] and all beneath them are as before, so is
    everything outside the directory, and nothing new has appeared.
    When not clearing, [cleared] is the file system before. *)
Theorem ensure_directories_clears R self env_dir st :
  lookup_path (fs st) env_dir = Some Dir ->
  let names := omap (entry_name env_dir) (map_to_list (fs st)).*1 in
  let clearing :=
    CrossEnvBuilder.self_clear_cross self || CrossEnvBuilder.self_clear_build self in
  let lib_path := OsPath.join env_dir "lib" in
  let cleared :=
    if clearing
    then filter (fun kv : string * node => swept env_dir names kv.1 = false) (fs st)
    else fs st in
  let evs :=
    FsRead "exists" env_dir
    :: (if clearing
        then FsRead "listdir" env_dir
             :: ((fun sub => FsWrite "remove" (OsPath.join env_dir sub))
                   <$> List.filter (fun sub => negb (kept sub)) names)
        else []) in
  CrossEnvBuilder.ensure_directories R self env_dir st
  = match venv_ensure_directories R env_dir cleared with
    | Ok (context, f') =>
        (Ok (<["exposed_libs" := OsPath.join lib_path "exposed.txt"]>
               (<["lib_path" := lib_path]> context)),
         State (match f' !! lib_path with
                | Some _ => f'
                | None => <[lib_path := Dir]> f'
                end)
               (trace st ++ evs
                ++ [FsWrite "venv" env_dir; FsWrite "mkdir" lib_path]))
    | Raise e =>
        (Raise e, State cleared (trace st ++ evs ++ [FsWrite "venv" env_dir]))
    end
  /\ (clearing = true ->
      (forall k name k',
         is_Some (fs st !! k) -> entry_name env_dir k = Some name ->
         name ∉ ["cross"; "build"] -> beneath k k' = true ->
         cleared !! k' = None)
      /\ (forall k,
            beneath (OsPath.join env_dir "cross") k = true
            \/ beneath (OsPath.join env_dir "build") k = true ->
            cleared !! k = fs st !! k)
      /\ (forall k,
            PyStr.startswith k (with_slash env_dir) = false ->
            cleared !! k = fs st !! k)
      /\ (forall k, cleared !! k = None \/ cleared !! k = fs st !! k))
  /\ (clearing = false -> cleared = fs st).
Proof.
  intros Hdir names clearing lib_path cleared evs.
  assert (Hd : env_dir <> "").
  { intros ->. by unfold lookup_path in Hdir. }
  pose proof (clear_loop env_dir names
                (log (log st [FsRead "exists" env_dir]) [FsRead "listdir" env_dir]))
    as (L1 & L2 & L3).
  assert (Hclear : CrossEnvBuilder.ensure_directories_clear self env_dir st
                   = (Ok tt, State cleared (trace st ++ evs))).
  { rewrite clear_run by done. fold names clearing. subst cleared evs.
    destruct clearing.
    - destruct (for_each names (clear_body env_dir) _) as [r st1].
      cbn [fst snd] in L1, L2, L3. subst r. destruct st1 as [f1 t1].
      cbn [fs trace log] in L2, L3. f_equal. f_equal.
      + apply map_eq. intros k. by rewrite L2, lookup_swept.
      + rewrite L3. by rewrite <- !app_assoc.
    - reflexivity. }
  split; [|split].
  - unfold CrossEnvBuilder.ensure_directories.
    rewrite (bind_ok _ _ _ _ _ Hclear), bind_run, run_super. cbn [fs trace].
    destruct (venv_ensure_directories R env_dir cleared) as [[context f']|e].
    + rewrite bind_run, run_mkdir. cbn [fs trace]. fold lib_path.
      unfold mret, M_ret. by rewrite <- !app_assoc.
    + unfold log. cbn [fs trace]. by rewrite <- !app_assoc.
  - intros Hc. subst cleared. rewrite Hc.
    split; [|split; [|split]].
    + intros k name k' Hk Hname Hnot Hbelow. rewrite lookup_swept.
      assert (swept env_dir names k' = true) as ->; [|done].
      apply swept_true. exists name. split; [|split].
      * apply listdir_names. eauto.
      * unfold kept. by apply bool_decide_eq_false.
      * by destruct (entry_name_spec _ _ _ Hd Hname) as (<- & _ & _).
    + intros k Hk. rewrite lookup_swept.
      destruct (swept env_dir names k) eqn:Hs; [|done]. exfalso.
      apply swept_true in Hs as (sub & Hin & Hkept & Hbelow).
      apply listdir_names in Hin as (k0 & _ & Hname).
      destruct (entry_name_spec _ _ _ Hd Hname) as (_ & _ & Hcut).
      unfold kept in Hkept. apply bool_decide_eq_false in Hkept.
      destruct Hk as [Hk|Hk].
      * rewrite (beneath_apart env_dir "cross" sub k) in Hbelow; try done.
        intros <-. apply Hkept. set_solver.
      * rewrite (beneath_apart env_dir "build" sub k) in Hbelow; try done.
        intros <-. apply Hkept. set_solver.
    + intros k Hk. rewrite lookup_swept.
      destruct (swept env_dir names k) eqn:Hs; [|done]. exfalso.
      apply swept_true in Hs as (sub & Hin & Hkept & Hbelow).
      apply listdir_names in Hin as (k0 & _ & Hname).
      destruct (entry_name_spec _ _ _ Hd Hname) as (_ & _ & Hcut).
      rewrite join_entry in Hbelow by done.
      assert (PyStr.startswith k (with_slash env_dir) = true); [|congruence].
      apply startswith_iff. apply beneath_iff in Hbelow as [->|[r ->]].
      * eauto.
      * exists (sub +:+ "/" +:+ r). by rewrite !append_assoc.
    + intros k. rewrite lookup_swept. destruct (swept env_dir names k); auto.
  - intros Hc. subst cleared. by rewrite Hc.
Qed.

Lemma ensure_directories_clears_witness :
  let out := CrossEnvBuilder.ensure_directories Sample.runtime
               (Sample.builder_clearing true false) "/work/env"
               (Sample.start Sample.env_tree) in
  fs out.2 !! "/work/env/lib/site.py" = None
  /\ fs out.2 !! "/work/env/cross/pyvenv.cfg" = Some (File "home = /usr/bin" None).
Proof.
  pose proof (ensure_directories_clears Sample.runtime
                (Sample.builder_clearing true false) "/work/env"
                (Sample.start Sample.env_tree)
                ltac:(vm_compute; reflexivity)) as H.
  cbv zeta in H. destruct H as [H _].
  cbv zeta. split.
  - exact (eq_trans
             (f_equal (fun o : result dict * state =>
                         fs o.2 !! "/work/env/lib/site.py") H)
             ltac:(vm_compute; reflexivity)).
  - exact (eq_trans
             (f_equal (fun o : result dict * state =>
                         fs o.2 !! "/work/env/cross/pyvenv.cfg") H)
             ltac:(vm_compute; reflexivity)).
Defined.

Example clearing_sample :
  let out := CrossEnvBuilder.ensure_directories Sample.runtime
               (Sample.builder_clearing true false) "/work/env"
               (Sample.start Sample.env_tree) in
  map_to_list (fs out.2)
  ≡ₚ [("/work", Dir);
      ("/work/env", Dir);
      ("/work/env/cross", Dir);
      ("/work/env/cross/pyvenv.cfg", File "home = /usr/bin" None);
      ("/work/env/build", Dir);
      ("/work/env/build/bin", Dir);
      ("/work/env/include", Dir);
      ("/work/env/lib", Dir);
      ("/work/env/bin", Dir);
      ("/work/other", Dir)]
  /\ removals (trace out.2)
     ≡ₚ ["/work/env/lib"; "/work/env/bin"; "/work/env/crossenv.cfg"].
Proof.
  split.
  - apply (bool_decide_unpack _). vm_compute. reflexivity.
  - apply (bool_decide_unpack _). vm_compute. reflexivity.
Qed.

(** The same with the environment directory spelled with a trailing
    slash, as the operating system also accepts it. *)
Example clearing_sample_slash :
  let out := CrossEnvBuilder.ensure_directories Sample.runtime
               (Sample.builder_clearing true false) "/work/env/"
               (Sample.start Sample.env_tree) in
  lookup_path Sample.env_tree "/work/env/" = Some Dir
  /\ removals (trace out.2)
     ≡ₚ ["/work/env/lib"; "/work/env/bin"; "/work/env/crossenv.cfg"]
  /\ fs out.2 !! "/work/env/lib/site.py" = None.
Proof.
  split; [vm_compute; reflexivity|]. split.
  - apply (bool_decide_unpack _). vm_compute. reflexivity.
  - vm_compute. reflexivity.
Qed.
